(** * SeniorCare Health Assistant API: a shallow embedding of [backend/app.py]

    The request handlers of [app.py] are embedded as computations in a
    state-and-exception monad over a [World]: the module globals read from
    the environment, the remote Supabase database behind the [supabase]
    client, the server clock, and the two remote providers (Lingo.dev over
    HTTP, OpenAI chat completions).

    Modelling conventions.
    - Python [str] is [string], the bytes of its UTF-8 encoding; [int] is
      [Z].  [strip] removes Python's white space, ASCII and Unicode, at
      both ends; the patterns searched for in a string are ASCII, where
      matching bytes and matching characters agree.
    - Python [float] is an exact rational [Q]: the binary64 rounding of
      [/] and [*] is not modelled.  [round(x, 1)] is rounding to the
      nearest tenth, ties to even.
    - The Supabase tables live in a [Database] record; [select], [update],
      [insert] and [upsert] follow PostgREST: [eq] filters keep the rows
      whose column equals the value, [single] demands exactly one row,
      [upsert] with [on_conflict] replaces the row that has the same
      conflict key.
    - A request sent by [execute()] can fail: the world carries a schedule
      of faults, one entry per request. *)

From Stdlib Require Import ZArith QArith Qround Lia Lqa Ascii String.
From stdpp Require Import base option list gmap strings.

Set Default Proof Using "Type".

(* ===================================================================== *)
(** * Python values *)
(* ===================================================================== *)

Module Py.

(** [c.isspace()] for an ASCII character: U+0009 to U+000D and U+001C to
    U+0020. *)
Definition isspace (c : ascii) : bool :=
  let n := nat_of_ascii c in
  ((9 <=? n)%nat && (n <=? 13)%nat) || ((28 <=? n)%nat && (n <=? 32)%nat).

(** The number of bytes of the white-space character that [s] starts
    with, 0 when it starts with none.  Python's white space is the ASCII
    one and U+0085, U+00A0, U+1680, U+2000 to U+200A, U+2028, U+2029,
    U+202F, U+205F, U+3000; a [str] is held as its UTF-8 bytes, so these
    are C2 85, C2 A0, E1 9A 80, E2 80 80 to E2 80 8A, E2 80 A8, E2 80 A9,
    E2 80 AF, E2 81 9F and E3 80 80. *)
Definition space_width (s : string) : nat :=
  match s with
  | EmptyString => 0
  | String a r =>
      if isspace a then 1
      else
        let x := nat_of_ascii a in
        match r with
        | EmptyString => 0
        | String b r' =>
            let y := nat_of_ascii b in
            if (x =? 194)%nat && ((y =? 133)%nat || (y =? 160)%nat) then 2
            else
              match r' with
              | EmptyString => 0
              | String c _ =>
                  let z := nat_of_ascii c in
                  if ((x =? 225)%nat && (y =? 154)%nat && (z =? 128)%nat)
                     || ((x =? 226)%nat && (y =? 128)%nat
                         && (((128 <=? z)%nat && (z <=? 138)%nat)
                             || (z =? 168)%nat || (z =? 169)%nat || (z =? 175)%nat))
                     || ((x =? 226)%nat && (y =? 129)%nat && (z =? 159)%nat)
                     || ((x =? 227)%nat && (y =? 128)%nat && (z =? 128)%nat)
                  then 3 else 0
              end
        end
  end.

(** [s] is exactly one white-space character. *)
Definition is_space_char (s : string) : bool :=
  (0 <? space_width s)%nat && (space_width s =? String.length s)%nat.

(** [s.lstrip()]: [skip] counts the bytes of a white-space character that
    are still to be dropped. *)
Fixpoint lstrip_go (skip : nat) (s : string) : string :=
  match s with
  | EmptyString => EmptyString
  | String c r =>
      match skip with
      | S k => lstrip_go k r
      | O =>
          match space_width s with
          | O => s
          | S k => lstrip_go k r
          end
      end
  end.

Definition lstrip (s : string) : string := lstrip_go 0 s.

(** [s.rstrip()]: once the tail is stripped, what is left is dropped when
    it is a single white-space character. *)
Fixpoint rstrip (s : string) : string :=
  match s with
  | EmptyString => EmptyString
  | String c r =>
      let t := rstrip r in
      if is_space_char (String c t) then EmptyString else String c t
  end.

(** [s.strip()] *)
Definition strip (s : string) : string := rstrip (lstrip s).

(** Truth value of a [str]: [bool(s)]. *)
Definition truthy_str (s : string) : bool :=
  match s with EmptyString => false | _ => true end.

(** Numbers as the handlers produce them: an [int] or a [float]. *)
Inductive number :=
| PyInt (z : Z)
| PyFloat (q : Q).

(** [a / b] on two ints: true division. The callers guard [b > 0]. *)
Definition truediv (a b : Z) : Q := Qred (inject_Z a / inject_Z b)%Q.

(** Nearest integer, ties to the even one. *)
Definition round_half_even (x : Q) : Z :=
  let f := Qfloor x in
  match ((x - inject_Z f) ?= (1 # 2))%Q with
  | Lt => f
  | Gt => (f + 1)%Z
  | Eq => if Z.even f then f else (f + 1)%Z
  end.

(** [round(x, 1)]: an [int] is returned as it is, a [float] is rounded
    to one decimal.  The float is held as an exact rational, so where the
    exact value is a tie the result can differ by one tenth from Python's,
    which rounds the binary64 value (23/80*100 is just below 28.75 as a
    double); both lie within 0.05 of the exact value. *)
Definition round1 (x : number) : number :=
  match x with
  | PyInt z => PyInt z
  | PyFloat q => PyFloat (Qred (inject_Z (round_half_even (q * 10)%Q) / 10)%Q)
  end.

End Py.

(* ===================================================================== *)
(** * Rows of the three tables *)
(* ===================================================================== *)

Module Senior.
Record t := mk { id : Z; name : string; emergency_info : string }.
End Senior.

Module Medication.
Record t := mk {
  id : Z;
  name : string;
  dosage : string;
  time : string;
  frequency : string;
  pill_color : string;
  senior_id : option Z;
  is_active : bool
}.

(** [{"is_active": False}] applied to a row. *)
Definition deactivate (m : t) : t :=
  mk (id m) (name m) (dosage m) (time m) (frequency m) (pill_color m)
     (senior_id m) false.
End Medication.

Module ReminderLog.
Record t := mk {
  id : Z;
  medication_id : Z;
  status : string;
  taken_on : string;
  taken_at : string
}.
End ReminderLog.

Record Database := mkDatabase {
  seniors : list Senior.t;
  medications : list Medication.t;
  reminder_logs : list ReminderLog.t;
  medications_seq : Z;      (* next generated medication id *)
  reminder_logs_seq : Z     (* next generated log id *)
}.

(* ===================================================================== *)
(** * Exceptions and the handler monad *)
(* ===================================================================== *)

Inductive exn :=
| AttributeError (msg : string)      (* [supabase] is [None] *)
| APIError (msg : string)            (* raised by [execute()] *)
| IndexError (msg : string)          (* [res.data[0]] on an empty list *)
| HTTPException (status_code : Z) (detail : string).

(** [str(e)] *)
Definition str (e : exn) : string :=
  match e with
  | AttributeError m | APIError m | IndexError m => m
  | HTTPException _ d => d
  end.

Inductive outcome (A : Type) :=
| Return (a : A)
| Raise (e : exn).
Arguments Return {A} a.
Arguments Raise {A} e.

(** JSON values, as [r.json()] yields them. *)
#[local] Unset Elimination Schemes.
Inductive json :=
| JNull
| JBool (b : bool)
| JNum (q : Q)
| JStr (s : string)
| JArr (items : list json)
| JObj (fields : list (string * json)).
#[local] Set Elimination Schemes.

(** What [client.post] gives back: an exception, or a status code with a
    body ([None] when the body is not JSON). *)
Inductive http_outcome :=
| HttpError
| HttpResponse (status_code : Z) (body : option json).

Record ChatRequest := mkChat {
  chat_model : string;
  chat_content : string;
  chat_temperature : Q
}.

(** Calls made while a request is handled, in order. *)
Inductive event :=
| EvSimplify (text : string)                      (* openai_simplify entered *)
| EvLingo (text target : string)                  (* call_lingo_translate entered *)
| EvOpenAITranslate (text target : string)        (* openai_translate entered *)
| EvChat (req : ChatRequest)                      (* chat.completions.create *)
| EvHttpPost (url text target : string).          (* client.post *)

Record World := mkWorld {
  LINGO_API_KEY : string;
  LINGO_PROJECT_ID : string;
  OPENAI_API_KEY : string;
  supabase : option Database;          (* [None] when credentials are missing *)
  faults : list (option string);       (* per request: [Some msg] = it raises *)
  today : string;                      (* date.today().isoformat() *)
  now : string;                        (* datetime.now().isoformat() *)
  chat : ChatRequest -> option string; (* reply content; [None] = the call fails *)
  lingo_post : string -> string -> string -> http_outcome;
  trace : list event
}.

Definition set_store (db : option Database) (fs : list (option string)) (w : World) : World :=
  mkWorld (LINGO_API_KEY w) (LINGO_PROJECT_ID w) (OPENAI_API_KEY w) db fs
          (today w) (now w) (chat w) (lingo_post w) (trace w).

Definition log_event (e : event) (w : World) : World :=
  mkWorld (LINGO_API_KEY w) (LINGO_PROJECT_ID w) (OPENAI_API_KEY w)
          (supabase w) (faults w) (today w) (now w) (chat w) (lingo_post w)
          (trace w ++ [e]).

Definition M (A : Type) : Type := World -> outcome A * World.

#[export] Instance M_ret : MRet M := fun A a w => (Return a, w).
#[export] Instance M_bind : MBind M := fun A B f m w =>
  match m w with
  | (Return a, w') => f a w'
  | (Raise e, w') => (Raise e, w')
  end.

Definition raise {A} (e : exn) : M A := fun w => (Raise e, w).

(** [try: body  except Exception as e: handler(e)] *)
Definition try_except {A} (body : M A) (handler : exn -> M A) : M A :=
  fun w =>
    match body w with
    | (Return a, w') => (Return a, w')
    | (Raise e, w') => handler e w'
    end.

Definition ask {A} (f : World -> A) : M A := fun w => (Return (f w), w).
Definition emit (e : event) : M unit := fun w => (Return tt, log_event e w).

(* ===================================================================== *)
(** * The Supabase client *)
(* ===================================================================== *)

(** A request built by [supabase.table(..)...] and what PostgREST does
    with it on the database. *)
Definition request (A : Type) : Type := Database -> outcome A * Database.

(** [supabase.table(..)....execute()] *)
Definition execute {A} (q : request A) : M A :=
  fun w =>
    match supabase w with
    | None => (Raise (AttributeError "'NoneType' object has no attribute 'table'"), w)
    | Some db =>
        match faults w with
        | Some msg :: fs => (Raise (APIError msg), set_store (Some db) fs w)
        | None :: fs => let '(r, db') := q db in (r, set_store (Some db') fs w)
        | [] => let '(r, db') := q db in (r, set_store (Some db') [] w)
        end
    end.

Definition med_of_senior (senior_id : Z) (m : Medication.t) : bool :=
  match Medication.senior_id m with
  | Some s => (s =? senior_id)%Z
  | None => false
  end.

(** [.eq("senior_id", senior_id).eq("is_active", True)] *)
Definition active_for (senior_id : Z) (m : Medication.t) : bool :=
  med_of_senior senior_id m && Medication.is_active m.

Definition bfilter {A} (p : A -> bool) (l : list A) : list A := List.filter p l.

(** [table("medications").select("*").eq("senior_id", s).eq("is_active", True)] *)
Definition select_active_medications (senior_id : Z) : request (list Medication.t) :=
  fun db => (Return (bfilter (active_for senior_id) (medications db)), db).

(** [table("medications").select("id").eq("senior_id", s).eq("is_active", True)] *)
Definition select_active_medication_ids (senior_id : Z) : request (list Z) :=
  fun db => (Return (map Medication.id (bfilter (active_for senior_id) (medications db))), db).

(** [table("reminder_logs").select("*").eq("taken_on", day)] *)
Definition select_logs_on (day : string) : request (list ReminderLog.t) :=
  fun db => (Return (bfilter (fun l => String.eqb (ReminderLog.taken_on l) day)
                             (reminder_logs db)), db).

(** [table("reminder_logs").select("id").eq("taken_on", day).eq("status", st)] *)
Definition select_log_ids_on_with_status (day st : string) : request (list Z) :=
  fun db => (Return (map ReminderLog.id
                       (bfilter (fun l => String.eqb (ReminderLog.taken_on l) day
                                          && String.eqb (ReminderLog.status l) st)
                                (reminder_logs db))), db).

(* ===================================================================== *)
(** * Adherence summary *)
(* ===================================================================== *)

Record AdherenceSummary := mkSummary {
  total : Z;
  taken : Z;
  percentage : Py.number
}.

Definition len {A} (l : list A) : Z := Z.of_nat (length l).

(** [GET /adherence-summary] *)
Definition get_adherence_summary (senior_id : Z) : M AdherenceSummary :=
  try_except
    (today ← ask today;
     meds ← execute (select_active_medication_ids senior_id);
     let total_meds := len meds in
     logs ← execute (select_log_ids_on_with_status today "taken");
     let taken_meds := len logs in
     let percentage :=
       if (total_meds >? 0)%Z
       then Py.PyFloat (Qred (Py.truediv taken_meds total_meds * 100)%Q)
       else Py.PyInt 100 in
     mret (mkSummary total_meds taken_meds (Py.round1 percentage)))
    (fun _ => mret (mkSummary 0 0 (Py.PyInt 0))).

(* ===================================================================== *)
(** * Senior profile *)
(* ===================================================================== *)

(** [table("seniors").select("*").eq("id", senior_id).single()]:
    PostgREST answers with an error unless exactly one row matches. *)
Definition select_senior_single (senior_id : Z) : request Senior.t :=
  fun db =>
    match bfilter (fun s => (Senior.id s =? senior_id)%Z) (seniors db) with
    | [s] => (Return s, db)
    | _ => (Raise (APIError "JSON object requested, multiple (or no) rows returned"), db)
    end.

Definition fallback_profile : Senior.t :=
  Senior.mk 1 "Senior User" "Call 911 in case of emergency.".

(** [GET /senior/{senior_id}] *)
Definition get_senior (senior_id : Z) : M Senior.t :=
  try_except
    (execute (select_senior_single senior_id))
    (fun _ => mret fallback_profile).

(* ===================================================================== *)
(** * Medication CRUD *)
(* ===================================================================== *)

(** [GET /medications] *)
Definition get_medications (senior_id : Z) : M (list Medication.t) :=
  try_except
    (execute (select_active_medications senior_id))
    (fun _ => mret []).

Record MedicationRequest := mkMedicationRequest {
  req_name : string;
  req_dosage : string;
  req_time : string;
  req_frequency : string;
  req_pill_color : string;
  req_senior_id : option Z
}.

(** [res.data[0]] *)
Definition index0 {A} (data : list A) : M A :=
  match data with
  | x :: _ => mret x
  | [] => raise (IndexError "list index out of range")
  end.

(** [table("medications").insert(data)]: the id is generated. *)
Definition insert_medication (r : MedicationRequest) (active : bool)
  : request (list Medication.t) :=
  fun db =>
    let row := Medication.mk (medications_seq db) (req_name r) (req_dosage r)
                 (req_time r) (req_frequency r) (req_pill_color r)
                 (req_senior_id r) active in
    (Return [row],
     mkDatabase (seniors db) (medications db ++ [row]) (reminder_logs db)
                (medications_seq db + 1)%Z (reminder_logs_seq db)).

(** [POST /medications] *)
Definition add_medication (req : MedicationRequest) : M Medication.t :=
  try_except
    (data ← execute (insert_medication req true);
     index0 data)
    (fun e => raise (HTTPException 500 (str e))).

(** What the update does to one row: [is_active] becomes false on a row
    with the id, other rows stay. *)
Definition soft_deleted (med_id : Z) (m : Medication.t) : Medication.t :=
  if (Medication.id m =? med_id)%Z then Medication.deactivate m else m.

(** [table("medications").update({"is_active": False}).eq("id", med_id)] *)
Definition update_medication_inactive (med_id : Z) : request (list Medication.t) :=
  fun db =>
    (Return (map Medication.deactivate
                 (bfilter (fun m => (Medication.id m =? med_id)%Z) (medications db))),
     mkDatabase (seniors db) (map (soft_deleted med_id) (medications db))
                (reminder_logs db) (medications_seq db) (reminder_logs_seq db)).

Record Ack := mkAck { ack_status : string }.

(** [DELETE /medications/{med_id}] *)
Definition delete_medication (med_id : Z) : M Ack :=
  try_except
    (_ ← execute (update_medication_inactive med_id);
     mret (mkAck "deleted"))
    (fun e => raise (HTTPException 500 (str e))).

(* ===================================================================== *)
(** * Today's schedule and acknowledgment *)
(* ===================================================================== *)

Record ScheduleEntry := mkEntry {
  entry_med : Medication.t;
  entry_log : option ReminderLog.t      (* med["log"] *)
}.

(** [{log["medication_id"]: log for log in data}] *)
Definition logs_by_medication (data : list ReminderLog.t) : gmap Z ReminderLog.t :=
  foldl (fun acc log => <[ReminderLog.medication_id log := log]> acc) ∅ data.

(** The loop [for med in meds: med["log"] = logs.get(med["id"]); result.append(med)] *)
Definition annotate (logs : gmap Z ReminderLog.t) (meds : list Medication.t)
  : list ScheduleEntry :=
  foldl (fun result med => result ++ [mkEntry med (logs !! Medication.id med)]) [] meds.

(** [GET /today-schedule] *)
Definition get_today_schedule (senior_id : Z) : M (list ScheduleEntry) :=
  try_except
    (meds ← execute (select_active_medications senior_id);
     today ← ask today;
     logs_data ← execute (select_logs_on today);
     let logs := logs_by_medication logs_data in
     mret (annotate logs meds))
    (fun _ => mret []).

(** The request body of [POST /acknowledge]: it has no date field. *)
Record AcknowledgeRequest := mkAcknowledgeRequest {
  req_medication_id : Z;
  req_status : string
}.

(** Parsing the body: [status] defaults to ["taken"]. *)
Definition parse_acknowledge (medication_id : Z) (status : option string)
  : AcknowledgeRequest :=
  mkAcknowledgeRequest medication_id (default "taken" status).

(** The conflict key of [on_conflict="medication_id,taken_on"]. *)
Definition same_key (mid : Z) (day : string) (l : ReminderLog.t) : bool :=
  (ReminderLog.medication_id l =? mid)%Z && String.eqb (ReminderLog.taken_on l) day.

(** The row that [data] turns a conflicting row into: every column of
    [data] is written, the id stays. *)
Definition overwrite (mid : Z) (st day at_ : string) (l : ReminderLog.t) : ReminderLog.t :=
  ReminderLog.mk (ReminderLog.id l) mid st day at_.

Definition upsert_row (mid : Z) (st day at_ : string) (l : ReminderLog.t) : ReminderLog.t :=
  if same_key mid day l then overwrite mid st day at_ l else l.

(** [table("reminder_logs").upsert(data, on_conflict="medication_id,taken_on")]:
    a row with the same key is updated in place (it keeps its id), otherwise
    the row is inserted with a generated id.  The sequence advances either
    way. *)
Definition upsert_reminder_log (mid : Z) (st day at_ : string)
  : request (list ReminderLog.t) :=
  fun db =>
    let logs' :=
      if existsb (same_key mid day) (reminder_logs db)
      then map (upsert_row mid st day at_) (reminder_logs db)
      else reminder_logs db ++ [ReminderLog.mk (reminder_logs_seq db) mid st day at_] in
    (Return (bfilter (same_key mid day) logs'),
     mkDatabase (seniors db) (medications db) logs'
                (medications_seq db) (reminder_logs_seq db + 1)%Z).

(** [POST /acknowledge] *)
Definition acknowledge_med (req : AcknowledgeRequest) : M ReminderLog.t :=
  try_except
    (today ← ask today;
     at_ ← ask now;
     data ← execute (upsert_reminder_log (req_medication_id req) (req_status req) today at_);
     index0 data)
    (fun e => raise (HTTPException 500 (str e))).

(* ===================================================================== *)
(** * Simplify and translate *)
(* ===================================================================== *)

Definition nl : string := String (ascii_of_nat 10) EmptyString.

(** Truth value of a JSON value ([None] is [JNull]). *)
Definition truthy (v : json) : bool :=
  match v with
  | JNull => false
  | JBool b => b
  | JNum q => negb (Qeq_bool q 0)
  | JStr s => Py.truthy_str s
  | JArr items => match items with [] => false | _ => true end
  | JObj fields => match fields with [] => false | _ => true end
  end.

(** [a or b] *)
Definition py_or (a b : json) : json := if truthy a then a else b.

(** The binding of [key] in a parsed object: the last one of a repeated
    key wins. *)
Fixpoint dict_find (key : string) (fields : list (string * json)) : option json :=
  match fields with
  | [] => None
  | (k, v) :: rest =>
      match dict_find key rest with
      | Some found => Some found
      | None => if String.eqb k key then Some v else None
      end
  end.

(** [data.get(key)]: a missing key gives [None]. *)
Definition dict_get (key : string) (fields : list (string * json)) : json :=
  default JNull (dict_find key fields).

(** [call_lingo_translate]: [None] without credentials, on any exception,
    on a status other than 200 and on a body that is not an object. *)
Definition call_lingo_translate (text target : string) : M json :=
  _ ← emit (EvLingo text target);
  key ← ask LINGO_API_KEY;
  project ← ask LINGO_PROJECT_ID;
  if negb (Py.truthy_str key) || negb (Py.truthy_str project) then mret JNull
  else
    let url := ("https://api.lingo.dev/v1/projects/" ++ project ++ "/translate")%string in
    _ ← emit (EvHttpPost url text target);
    r ← ask (fun w => lingo_post w url text target);
    match r with
    | HttpResponse status_code body =>
        if (status_code =? 200)%Z then
          match body with
          | Some (JObj data) =>
              mret (py_or (py_or (dict_get "translation" data)
                                 (dict_get "translatedText" data))
                          (dict_get "result" data))
          | _ => mret JNull
          end
        else mret JNull
    | HttpError => mret JNull
    end.

(** One [client.chat.completions.create] call with a single user message;
    [response.choices[0].message.content.strip()], or [fallback] when the
    call or the access to its reply raises. *)
Definition chat_or (req : ChatRequest) (fallback : string) : M string :=
  _ ← emit (EvChat req);
  reply ← ask (fun w => chat w req);
  match reply with
  | Some content => mret (Py.strip content)
  | None => mret fallback
  end.

Definition simplify_prompt (text : string) : string :=
  ("You are a warm, caring health assistant. Simplify this message for a senior. "
   ++ "Use gentle, clear, 1-syllable words where possible. Under 10 words." ++ nl ++ nl
   ++ "Message: " ++ text ++ nl ++ nl ++ "Simplified English:")%string.

(** [openai_simplify] *)
Definition openai_simplify (text : string) : M string :=
  _ ← emit (EvSimplify text);
  key ← ask OPENAI_API_KEY;
  if negb (Py.truthy_str key) then mret text
  else chat_or (mkChat "gpt-4o-mini" (simplify_prompt text) (2 # 10)) text.

Definition language_names : gmap string string :=
  list_to_map
    [("hi", "Hindi"); ("ta", "Tamil"); ("te", "Telugu"); ("bn", "Bengali");
     ("ml", "Malayalam"); ("mr", "Marathi"); ("or", "Odia"); ("es", "Spanish");
     ("fr", "French"); ("ar", "Arabic"); ("en", "English")].

Definition translate_prompt (text target : string) : string :=
  let target_name := default target (language_names !! target) in
  ("Translate this health message into " ++ target_name
   ++ " for a senior. Be very respectful and clear." ++ nl ++ nl
   ++ "Message: " ++ text ++ nl ++ nl ++ "Translation:")%string.

(** [openai_translate] *)
Definition openai_translate (text target : string) : M string :=
  _ ← emit (EvOpenAITranslate text target);
  key ← ask OPENAI_API_KEY;
  if negb (Py.truthy_str key) then mret text
  else chat_or (mkChat "gpt-4o-mini" (translate_prompt text target) (3 # 10)) text.

Record TranslateRequest := mkTranslateRequest {
  req_text : string;
  req_target_lang : string
}.

Record TranslateResponse := mkTranslateResponse {
  translated_text : json;
  target_lang : string;
  provider : string;
  quality : option string       (* the key is absent in the last branch *)
}.

(** [POST /translate] *)
Definition translate (req : TranslateRequest) : M TranslateResponse :=
  let text := Py.strip (req_text req) in
  let target := Py.strip (req_target_lang req) in
  if negb (Py.truthy_str text) then raise (HTTPException 400 "Text is required.")
  else
    simplified ← openai_simplify text;
    translation ← call_lingo_translate simplified target;
    if truthy translation
    then mret (mkTranslateResponse translation target "lingo.dev" (Some "senior-simplified"))
    else
      try_except
        (translation ← openai_translate simplified target;
         mret (mkTranslateResponse (JStr translation) target "openai"
                                   (Some "senior-simplified")))
        (fun _ => mret (mkTranslateResponse (JStr text) target "none" None)).

(* ===================================================================== *)
(** * Module start-up *)
(* ===================================================================== *)

(** The in-memory fallback that the module defines when [supabase] is
    not configured. *)
Record InMemory := mkInMemory {
  _senior : Senior.t;
  _medications : list Medication.t;
  _reminder_logs : list ReminderLog.t
}.

Record Globals := mkGlobals {
  g_supabase : option Database;
  g_in_memory : option InMemory
}.

(** The module-level code: [remote] is the database that the credentials
    give access to. *)
Definition module_init (SUPABASE_URL SUPABASE_ANON_KEY : string) (remote : Database)
  : Globals :=
  let supabase :=
    if Py.truthy_str SUPABASE_URL && Py.truthy_str SUPABASE_ANON_KEY
    then Some remote else None in
  let in_memory :=
    match supabase with
    | None => Some (mkInMemory
                      (Senior.mk 1 "Demo Senior" "Call 911 if unconscious.") [] [])
    | Some _ => None
    end in
  mkGlobals supabase in_memory.

(* ===================================================================== *)
(** * Senior profile update *)
(* ===================================================================== *)

Record SeniorUpdate := mkSeniorUpdate {
  upd_name : string;
  upd_emergency_info : string
}.

(** [table("seniors").upsert(row)]: the conflict key is the primary key
    [id]; a row with that id is replaced, otherwise the row is inserted. *)
Definition upsert_senior (row : Senior.t) : request (list Senior.t) :=
  fun db =>
    let hit s := (Senior.id s =? Senior.id row)%Z in
    let seniors' :=
      if existsb hit (seniors db)
      then map (fun s => if hit s then row else s) (seniors db)
      else seniors db ++ [row] in
    (Return (bfilter hit seniors'),
     mkDatabase seniors' (medications db) (reminder_logs db)
                (medications_seq db) (reminder_logs_seq db)).

(** [POST /senior/{senior_id}] *)
Definition update_senior (senior_id : Z) (req : SeniorUpdate) : M Senior.t :=
  try_except
    (data ← execute (upsert_senior
                       (Senior.mk senior_id (upd_name req) (upd_emergency_info req)));
     index0 data)
    (fun e => raise (HTTPException 500 (str e))).

(* ===================================================================== *)
(** * Prescription scan *)
(* ===================================================================== *)

Module PyStr.

(** [s.startswith(p)] *)
Fixpoint startswith (p s : string) : bool :=
  match p with
  | EmptyString => true
  | String a p' =>
      match s with
      | EmptyString => false
      | String b s' => Ascii.eqb a b && startswith p' s'
      end
  end.

(** [sub in s] *)
Fixpoint contains (sub s : string) : bool :=
  startswith sub s
  || match s with
     | EmptyString => false
     | String _ r => contains sub r
     end.

(** [s.split(sep)] for a non-empty [sep], scanning from the left: [cur]
    is the piece being read, [skip] counts the characters of a separator
    that are still to be passed. *)
Fixpoint split_go (sep : string) (skip : nat) (cur s : string) : list string :=
  match s with
  | EmptyString => [cur]
  | String c r =>
      match skip with
      | S k => split_go sep k cur r
      | O =>
          if startswith sep s
          then cur :: split_go sep (String.length sep - 1) EmptyString r
          else split_go sep 0 (cur ++ String c EmptyString)%string r
      end
  end.

Definition split (sep s : string) : list string := split_go sep 0 EmptyString s.

(** [s.replace(old, new)] for a non-empty [old]. *)
Fixpoint replace_go (old new : string) (skip : nat) (s : string) : string :=
  match s with
  | EmptyString => EmptyString
  | String c r =>
      match skip with
      | S k => replace_go old new k r
      | O =>
          if startswith old s
          then (new ++ replace_go old new (String.length old - 1) r)%string
          else String c (replace_go old new 0 r)
      end
  end.

Definition replace (old new s : string) : string := replace_go old new 0 s.

(** Every character of [s] satisfies [p]. *)
Fixpoint all (p : ascii -> bool) (s : string) : bool :=
  match s with
  | EmptyString => true
  | String c r => p c && all p r
  end.

End PyStr.

Definition fence : string := "```".

(** What the handler answers: [{"status": "success", "extracted_data": ..}]
    or [{"status": "error", "message": ..}]. *)
Inductive ScanResult :=
| ScanSuccess (extracted_data : json)
| ScanError (message : string).

Definition sample_extraction : json :=
  JObj [("medicine", JStr "Sample Med"); ("dosage", JStr "1 pill");
        ("time", JStr "10:00"); ("pill_color", JStr "blue")].

Definition lift {A} (o : outcome A) : M A := fun w => (o, w).

(** The text handed to [json.loads]: with a code fence in the reply, the
    piece after the first fence, every "json" removed, stripped. *)
Definition scan_payload (text_resp : string) : outcome string :=
  if PyStr.contains fence text_resp
  then match PyStr.split fence text_resp !! 1%nat with
       | Some piece => Return (Py.strip (PyStr.replace "json" "" piece))
       | None => Raise (IndexError "list index out of range")
       end
  else Return text_resp.

Section Scan.

(** The library calls of the handler: [base64.b64encode(..).decode('utf-8')],
    the vision request for a data URL (its reply content, which can be
    [None]) and [json.loads]. *)
Variable b64encode : string -> string.
Variable vision : string -> outcome (option string).
Variable json_loads : string -> outcome json.

(** [POST /scan-prescription]; [file] is what [await file.read()] gives. *)
Definition scan_prescription (file : outcome string) : M ScanResult :=
  key ← ask OPENAI_API_KEY;
  if negb (Py.truthy_str key) then mret (ScanSuccess sample_extraction)
  else
    try_except
      (contents ← lift file;
       let base64_image := b64encode contents in
       reply ← lift (vision ("data:image/jpeg;base64," ++ base64_image)%string);
       content ← match reply with
                 | Some c => mret c
                 | None => raise (AttributeError
                                    "'NoneType' object has no attribute 'strip'")
                 end;
       let text_resp := Py.strip content in
       payload ← lift (scan_payload text_resp);
       data ← lift (json_loads payload);
       mret (ScanSuccess data))
      (fun e => mret (ScanError (str e))).

End Scan.

(* ===================================================================== *)
(** * Vocabulary of the statements *)
(* ===================================================================== *)

Definition no_fault (f : option string) : bool :=
  match f with None => true | Some _ => false end.

(** The client exists and the next [n] requests go through. *)
Definition adapter_up (n : nat) (w : World) : bool :=
  match supabase w with
  | Some _ => forallb no_fault (take n (faults w))
  | None => false
  end.

(** The rows a senior's active-medication queries see. *)
Definition active_medications (senior_id : Z) (db : Database) : list Medication.t :=
  bfilter (active_for senior_id) (medications db).

(** Today's logs with status ["taken"], of any medication. *)
Definition taken_logs_on (day : string) (db : Database) : list ReminderLog.t :=
  bfilter (fun l => String.eqb (ReminderLog.taken_on l) day
                    && String.eqb (ReminderLog.status l) "taken")
          (reminder_logs db).

Definition log_key (l : ReminderLog.t) : Z * string :=
  (ReminderLog.medication_id l, ReminderLog.taken_on l).

(** The uniqueness constraint on [(medication_id, taken_on)] that
    [on_conflict] names. *)
Definition logs_unique (db : Database) : Prop :=
  NoDup (map log_key (reminder_logs db)).

(** The [except] branch of [get_senior] is taken: the request raises. *)
Definition fallback_path (senior_id : Z) (w : World) : Prop :=
  exists e w', execute (select_senior_single senior_id) w = (Raise e, w').

Definition zero_summary : AdherenceSummary := mkSummary 0 0 (Py.PyInt 0).

Definition log_events (evs : list event) (w : World) : World :=
  mkWorld (LINGO_API_KEY w) (LINGO_PROJECT_ID w) (OPENAI_API_KEY w)
          (supabase w) (faults w) (today w) (now w) (chat w) (lingo_post w)
          (trace w ++ evs).

Definition simplify_chat (text : string) : ChatRequest :=
  mkChat "gpt-4o-mini" (simplify_prompt text) (2 # 10).

Definition translate_chat (text target : string) : ChatRequest :=
  mkChat "gpt-4o-mini" (translate_prompt text target) (3 # 10).

(** The reply of the language model, stripped, or [fallback] when the
    call fails. *)
Definition chat_reply (w : World) (req : ChatRequest) (fallback : string) : string :=
  match chat w req with
  | Some content => Py.strip content
  | None => fallback
  end.

(** Value and outgoing calls of each stage. *)
Definition simplified (text : string) (w : World) : string :=
  if Py.truthy_str (OPENAI_API_KEY w) then chat_reply w (simplify_chat text) text else text.

Definition simplify_calls (text : string) (w : World) : list event :=
  if Py.truthy_str (OPENAI_API_KEY w) then [EvChat (simplify_chat text)] else [].

Definition lingo_configured (w : World) : bool :=
  Py.truthy_str (LINGO_API_KEY w) && Py.truthy_str (LINGO_PROJECT_ID w).

Definition lingo_url (w : World) : string :=
  ("https://api.lingo.dev/v1/projects/" ++ LINGO_PROJECT_ID w ++ "/translate")%string.

Definition lingo_result (text target : string) (w : World) : json :=
  if lingo_configured w then
    match lingo_post w (lingo_url w) text target with
    | HttpResponse status_code body =>
        if (status_code =? 200)%Z then
          match body with
          | Some (JObj data) =>
              py_or (py_or (dict_get "translation" data) (dict_get "translatedText" data))
                    (dict_get "result" data)
          | _ => JNull
          end
        else JNull
    | HttpError => JNull
    end
  else JNull.

Definition lingo_calls (text target : string) (w : World) : list event :=
  if lingo_configured w then [EvHttpPost (lingo_url w) text target] else [].

Definition llm_translated (text target : string) (w : World) : string :=
  if Py.truthy_str (OPENAI_API_KEY w)
  then chat_reply w (translate_chat text target) text else text.

Definition llm_translate_calls (text target : string) (w : World) : list event :=
  if Py.truthy_str (OPENAI_API_KEY w) then [EvChat (translate_chat text target)] else [].

Definition senior_simplified : option string := Some "senior-simplified".

(** The response and the calls of [translate] on a non-empty text. *)
Definition translate_response (text target : string) (w : World) : TranslateResponse :=
  let s := simplified text w in
  let t := lingo_result s target w in
  if truthy t
  then mkTranslateResponse t target "lingo.dev" senior_simplified
  else mkTranslateResponse (JStr (llm_translated s target w)) target "openai"
                           senior_simplified.

Definition translate_calls (text target : string) (w : World) : list event :=
  let s := simplified text w in
  (EvSimplify text :: simplify_calls text w)
  ++ (EvLingo s target :: lingo_calls s target w)
  ++ (if truthy (lingo_result s target w) then []
      else EvOpenAITranslate s target :: llm_translate_calls s target w).

(** The primary key of the seniors table. *)
Definition seniors_unique (db : Database) : Prop :=
  NoDup (map Senior.id (seniors db)).

(** [status == "taken"] as a count. *)
Definition taken_weight (st : string) : Z := if String.eqb st "taken" then 1 else 0.

(** No character of [s] is a backtick. *)
Definition no_backtick (s : string) : bool :=
  PyStr.all (fun c => negb (Ascii.eqb c "`"%char)) s.

(** What the scan answers once [json.loads] has seen the payload. *)
Definition parsed (loaded : outcome json) : ScanResult :=
  match loaded with
  | Return data => ScanSuccess data
  | Raise e => ScanError (str e)
  end.

(* ===================================================================== *)
(** * Example data *)
(* ===================================================================== *)

Definition empty_database : Database := mkDatabase [] [] [] 1 1.

(** A world with no provider credentials, the given store and faults. *)
Definition quiet_world (db : option Database) (fs : list (option string)) : World :=
  mkWorld "" "" "" db fs "2024-05-01" "2024-05-01T08:00:00"
          (fun _ => None) (fun _ _ _ => HttpError) [].

Definition pill (name : string) (senior_id : Z) : MedicationRequest :=
  mkMedicationRequest name "1" "08:00" "daily" "white" (Some senior_id).

(** One senior with one active medication and a log of the day before. *)
Definition sample_database : Database :=
  mkDatabase
    [Senior.mk 1 "Asha" "Call her daughter."]
    [Medication.mk 1 "Aspirin" "1" "08:00" "daily" "white" (Some 1%Z) true]
    [ReminderLog.mk 1 1 "taken" "2024-04-30" "2024-04-30T08:05:00"]
    2 2.

(** Senior 1 has one medication and takes nothing; senior 2 has two and
    takes both. *)
Definition two_seniors_session : M AdherenceSummary :=
  _ ← add_medication (pill "Aspirin" 1);
  b ← add_medication (pill "Metformin" 2);
  c ← add_medication (pill "Statin" 2);
  _ ← acknowledge_med (mkAcknowledgeRequest (Medication.id b) "taken");
  _ ← acknowledge_med (mkAcknowledgeRequest (Medication.id c) "taken");
  get_adherence_summary 1.

(** One medication, acknowledged as taken. *)
Definition one_medication_session : M AdherenceSummary :=
  a ← add_medication (pill "Aspirin" 1);
  _ ← acknowledge_med (mkAcknowledgeRequest (Medication.id a) "taken");
  get_adherence_summary 1.

(** White-space characters outside ASCII, as UTF-8 bytes: U+00A0 (no-break
    space) and U+3000 (ideographic space). *)
Definition nbsp : string :=
  String (ascii_of_nat 194) (String (ascii_of_nat 160) EmptyString).

Definition ideographic_space : string :=
  String (ascii_of_nat 227)
         (String (ascii_of_nat 128) (String (ascii_of_nat 128) EmptyString)).

(** A language-model key and a Lingo.dev credential; every call fails. *)
Definition failing_providers_world : World :=
  mkWorld "lingo-key" "proj" "sk-test" None [] "2024-05-01" "2024-05-01T08:00:00"
          (fun _ => None) (fun _ _ _ => HttpError) [].

(** A language-model key and no Lingo.dev credential; the model answers
    every prompt with a single space. *)
Definition blank_llm_world : World :=
  mkWorld "" "" "sk-test" None [] "2024-05-01" "2024-05-01T08:00:00"
          (fun _ => Some " ") (fun _ _ _ => HttpError) [].

(** Both providers configured and answering. *)
Definition both_providers_world : World :=
  mkWorld "lingo-key" "proj" "sk-test" None [] "2024-05-01" "2024-05-01T08:00:00"
          (fun _ => Some "from the model")
          (fun _ _ _ => HttpResponse 200 (Some (JObj [("translation", JStr "from lingo")])))
          [].

(** A language-model key, no Lingo.dev credential, a model that answers. *)
Definition llm_only_world : World :=
  mkWorld "" "" "sk-test" None [] "2024-05-01" "2024-05-01T08:00:00"
          (fun _ => Some "from the model") (fun _ _ _ => HttpError) [].

(* ===================================================================== *)
(** * Proof automation *)
(* ===================================================================== *)

Ltac run_handler :=
  cbv [try_except mbind M_bind mret M_ret ask raise index0].

(* ===================================================================== *)
(** * Reasoning about the adapter *)
(* ===================================================================== *)

Lemma execute_up {A} (q : request A) (w : World) (db : Database) (n : nat) :
  supabase w = Some db ->
  adapter_up (S n) w = true ->
  execute q w = (fst (q db), set_store (Some (snd (q db))) (tail (faults w)) w)
  /\ adapter_up n (set_store (Some (snd (q db))) (tail (faults w)) w) = true.
Proof.
  unfold adapter_up, execute. intros -> Hup.
  destruct (faults w) as [|[msg|] fs]; simpl in *; try discriminate;
    destruct (q db) as [r db']; simpl; split; try reflexivity.
  - by destruct n.
  - done.
Qed.

Lemma execute_down {A} (q : request A) (w : World) :
  adapter_up 1 w = false ->
  exists e w', execute q w = (Raise e, w').
Proof.
  unfold adapter_up, execute. destruct (supabase w) as [db|]; [|by eauto].
  destruct (faults w) as [|[msg|] fs]; simpl; try discriminate; eauto.
Qed.

(* ===================================================================== *)
(** * Rounding *)
(* ===================================================================== *)



(* ===================================================================== *)
(** * Adherence summary: results *)
(* ===================================================================== *)

Lemma get_adherence_summary_up (senior_id : Z) (w : World) (db : Database) :
  supabase w = Some db ->
  adapter_up 2 w = true ->
  exists w',
    get_adherence_summary senior_id w =
      (Return (mkSummary
                 (len (active_medications senior_id db))
                 (len (taken_logs_on (today w) db))
                 (Py.round1
                    (if (len (active_medications senior_id db) >? 0)%Z
                     then Py.PyFloat
                            (Qred (Py.truediv (len (taken_logs_on (today w) db))
                                              (len (active_medications senior_id db)) * 100)%Q)
                     else Py.PyInt 100))), w')
    /\ supabase w' = Some db.
Proof.
  intros Hdb Hup.
  destruct (execute_up (select_active_medication_ids senior_id) w db 1 Hdb Hup)
    as [E1 Hup1].
  simpl in E1, Hup1.
  set (w1 := set_store (Some db) (tail (faults w)) w) in *.
  destruct (execute_up (select_log_ids_on_with_status (today w) "taken") w1 db 0
              eq_refl Hup1) as [E2 _].
  simpl in E2.
  eexists. unfold get_adherence_summary. run_handler.
  rewrite E1. rewrite E2.
  unfold len, active_medications, taken_logs_on. rewrite !length_map.
  split; reflexivity.
Qed.



(** C7. When the client is missing or one of the two requests fails, the
    summary is all zero: total 0, taken 0, percentage 0, and no error is
    raised. *)
Theorem get_adherence_summary_failure (senior_id : Z) (w : World) :
  adapter_up 2 w = false ->
  exists w',
    get_adherence_summary senior_id w = (Return (mkSummary 0 0 (Py.PyInt 0)), w').
Proof.
  unfold adapter_up, get_adherence_summary, execute. run_handler.
  destruct (supabase w) as [db|] eqn:Hs; [|by eauto].
  destruct (faults w) as [|[m1|] [|[m2|] fs]] eqn:Hf; simpl;
    try discriminate; intros _; eauto.
Qed.

Lemma get_adherence_summary_failure_witness :
  exists w',
    get_adherence_summary 1 (quiet_world None []) =
      (Return (mkSummary 0 0 (Py.PyInt 0)), w').
Proof.
  apply (get_adherence_summary_failure 1 (quiet_world None [])); reflexivity.
Defined.

(** C2 (what the code does). The taken count is the number of all logs
    of today with status "taken", whichever senior or medication they
    belong to: after senior 2 has taken two medications, the summary of
    senior 1, who has one medication and took nothing, is total 1,
    taken 2, percentage 200.0. *)
Theorem adherence_summary_counts_other_seniors :
  fst (two_seniors_session (quiet_world (Some empty_database) []))
  = Return (mkSummary 1 2 (Py.PyFloat 200))
  /\ fst (one_medication_session (quiet_world (Some empty_database) []))
     = Return (mkSummary 1 1 (Py.PyFloat 100)).
Proof. split; vm_compute; reflexivity. Qed.

(* ===================================================================== *)
(** * Today's schedule: results *)
(* ===================================================================== *)

Lemma annotate_map_from (logs : gmap Z ReminderLog.t) (meds : list Medication.t)
    (acc : list ScheduleEntry) :
  foldl (fun result med => result ++ [mkEntry med (logs !! Medication.id med)]) acc meds
  = acc ++ map (fun med => mkEntry med (logs !! Medication.id med)) meds.
Proof.
  revert acc. induction meds as [|med meds IH]; intros acc; simpl.
  - by rewrite app_nil_r.
  - rewrite IH. by rewrite <- app_assoc.
Qed.

Lemma annotate_map (logs : gmap Z ReminderLog.t) (meds : list Medication.t) :
  annotate logs meds = map (fun med => mkEntry med (logs !! Medication.id med)) meds.
Proof. unfold annotate. by rewrite annotate_map_from. Qed.

Lemma logs_fold_Some (data : list ReminderLog.t) (m : gmap Z ReminderLog.t)
    (k : Z) (l : ReminderLog.t) :
  foldl (fun acc log => <[ReminderLog.medication_id log := log]> acc) m data !! k = Some l ->
  (In l data /\ ReminderLog.medication_id l = k) \/ m !! k = Some l.
Proof.
  revert m. induction data as [|x xs IH]; intros m; simpl; [by right|].
  intros H. destruct (IH _ H) as [[Hin Hk]|Hm]; [by left; auto|].
  destruct (decide (ReminderLog.medication_id x = k)) as [Heq|Hne].
  - subst k. rewrite lookup_insert_eq in Hm. injection Hm as <-. left. auto.
  - rewrite lookup_insert_ne in Hm by done. by right.
Qed.

Lemma logs_fold_None (data : list ReminderLog.t) (m : gmap Z ReminderLog.t) (k : Z) :
  foldl (fun acc log => <[ReminderLog.medication_id log := log]> acc) m data !! k = None ->
  m !! k = None /\ forall l, In l data -> ReminderLog.medication_id l <> k.
Proof.
  revert m. induction data as [|x xs IH]; intros m; simpl; [by auto|].
  intros H. destruct (IH _ H) as [Hm Hall].
  destruct (decide (ReminderLog.medication_id x = k)) as [Heq|Hne].
  - subst k. by rewrite lookup_insert_eq in Hm.
  - rewrite lookup_insert_ne in Hm by done. split; [done|].
    intros l [<-|Hin]; auto.
Qed.

Lemma get_today_schedule_up (senior_id : Z) (w : World) (db : Database) :
  supabase w = Some db ->
  adapter_up 2 w = true ->
  exists w',
    get_today_schedule senior_id w =
      (Return (map (fun med =>
                      mkEntry med (logs_by_medication
                                     (bfilter (fun l => String.eqb (ReminderLog.taken_on l) (today w))
                                              (reminder_logs db))
                                   !! Medication.id med))
                   (active_medications senior_id db)), w')
    /\ supabase w' = Some db.
Proof.
  intros Hdb Hup.
  destruct (execute_up (select_active_medications senior_id) w db 1 Hdb Hup)
    as [E1 Hup1].
  simpl in E1, Hup1.
  set (w1 := set_store (Some db) (tail (faults w)) w) in *.
  destruct (execute_up (select_logs_on (today w)) w1 db 0 eq_refl Hup1) as [E2 _].
  simpl in E2.
  eexists. unfold get_today_schedule. run_handler.
  rewrite E1. change (today w1) with (today w). rewrite E2.
  rewrite annotate_map. split; reflexivity.
Qed.

Lemma get_today_schedule_down (senior_id : Z) (w : World) :
  adapter_up 2 w = false ->
  exists w', get_today_schedule senior_id w = (Return [], w').
Proof.
  unfold adapter_up, get_today_schedule, execute. run_handler.
  destruct (supabase w) as [db|] eqn:Hs; [|by eauto].
  destruct (faults w) as [|[m1|] [|[m2|] fs]] eqn:Hf; simpl;
    try discriminate; intros _; eauto.
Qed.

(** C4. The schedule handler always returns a list and never raises.
    When the client is missing or one of its two requests fails, the list
    is empty.  Otherwise it has one entry per active medication of the
    senior, in the order of the store, and the log of an entry is a
    reminder log of that medication dated today when the store has one,
    and absent when it has none. *)
Theorem get_today_schedule_left_join (senior_id : Z) (w : World) :
  exists entries w',
    get_today_schedule senior_id w = (Return entries, w')
    /\ (adapter_up 2 w = false -> entries = [])
    /\ (forall db,
          supabase w = Some db ->
          adapter_up 2 w = true ->
          map entry_med entries = active_medications senior_id db
          /\ forall e, In e entries ->
               match entry_log e with
               | Some l =>
                   In l (reminder_logs db)
                   /\ ReminderLog.medication_id l = Medication.id (entry_med e)
                   /\ ReminderLog.taken_on l = today w
               | None =>
                   forall l, In l (reminder_logs db) ->
                             ReminderLog.taken_on l = today w ->
                             ReminderLog.medication_id l <> Medication.id (entry_med e)
               end).
Proof.
  destruct (adapter_up 2 w) eqn:Hup.
  - assert (exists db, supabase w = Some db) as [db Hdb].
    { unfold adapter_up in Hup. destruct (supabase w); [eauto|discriminate]. }
    destruct (get_today_schedule_up senior_id w db Hdb Hup) as (w' & E & _).
    eexists _, w'. split; [exact E|]. split; [discriminate|].
    intros db' Hdb' _. assert (db' = db) as -> by congruence.
    split.
    + rewrite map_map. simpl. apply map_id.
    + intros e He. apply in_map_iff in He as (med & <- & _). simpl.
      destruct (logs_by_medication _ !! Medication.id med) as [l|] eqn:Hl.
      * apply logs_fold_Some in Hl as [[Hin Hk]|Hm]; [|by rewrite lookup_empty in Hm].
        apply filter_In in Hin as [Hin Hday].
        apply String.eqb_eq in Hday. auto.
      * apply logs_fold_None in Hl as [_ Hall].
        intros l Hin Hday. apply Hall. apply filter_In. split; [done|].
        by apply String.eqb_eq.
  - destruct (get_today_schedule_down senior_id w Hup) as (w' & E).
    exists [], w'. split; [exact E|]. split; [done|]. discriminate.
Qed.

(* ===================================================================== *)
(** * Acknowledgment: results *)
(* ===================================================================== *)

Section Upsert.
Variables (mid : Z) (st day at_ : string).

#[local] Abbreviation ow := (overwrite mid st day at_).
#[local] Abbreviation upd := (upsert_row mid st day at_).

Lemma same_key_spec (l : ReminderLog.t) :
  same_key mid day l = true <-> log_key l = (mid, day).
Proof.
  unfold same_key, log_key. rewrite andb_true_iff, Z.eqb_eq, String.eqb_eq.
  split; [intros [-> ->]; reflexivity | intros [= -> ->]; auto].
Qed.

Lemma same_key_overwrite (l : ReminderLog.t) : same_key mid day (ow l) = true.
Proof. apply same_key_spec. reflexivity. Qed.

Lemma same_key_upd (l : ReminderLog.t) : same_key mid day (upd l) = same_key mid day l.
Proof.
  unfold upd. destruct (same_key mid day l) eqn:E; [apply same_key_overwrite | exact E].
Qed.

Lemma log_key_upd (l : ReminderLog.t) : log_key (upd l) = log_key l.
Proof.
  unfold upd. destruct (same_key mid day l) eqn:E; [|reflexivity].
  apply same_key_spec in E. rewrite E. reflexivity.
Qed.

Lemma filter_hit_upd (logs : list ReminderLog.t) :
  bfilter (same_key mid day) (map upd logs)
  = map ow (bfilter (same_key mid day) logs).
Proof.
  unfold bfilter. induction logs as [|l logs IH]; simpl; [reflexivity|].
  rewrite same_key_upd. unfold upd at 1.
  destruct (same_key mid day l); simpl; by rewrite IH.
Qed.

Lemma filter_miss_upd (logs : list ReminderLog.t) :
  bfilter (fun l => negb (same_key mid day l)) (map upd logs)
  = bfilter (fun l => negb (same_key mid day l)) logs.
Proof.
  unfold bfilter. induction logs as [|l logs IH]; simpl; [reflexivity|].
  rewrite same_key_upd. unfold upd at 1.
  destruct (same_key mid day l); simpl; by rewrite IH.
Qed.

Lemma filter_hit_none (logs : list ReminderLog.t) :
  existsb (same_key mid day) logs = false ->
  bfilter (same_key mid day) logs = []
  /\ ~ In (mid, day) (map log_key logs).
Proof.
  unfold bfilter. induction logs as [|l logs IH]; simpl; [by auto|].
  intros H. apply orb_false_iff in H as [Hl Hrest]. rewrite Hl.
  destruct (IH Hrest) as [-> Hnot]. split; [reflexivity|].
  intros [Hk|Hin]; [|by auto].
  apply same_key_spec in Hk. congruence.
Qed.

Lemma filter_hit_unique (logs : list ReminderLog.t) :
  NoDup (map log_key logs) ->
  existsb (same_key mid day) logs = true ->
  exists old, bfilter (same_key mid day) logs = [old].
Proof.
  unfold bfilter. induction logs as [|l logs IH]; simpl; [discriminate|].
  intros Hnd. apply NoDup_cons in Hnd as [Hfresh Hnd].
  rewrite list_elem_of_In in Hfresh.
  destruct (same_key mid day l) eqn:Hl; simpl.
  - intros _. exists l. f_equal.
    destruct (existsb (same_key mid day) logs) eqn:Hex.
    + exfalso. apply Hfresh. apply existsb_exists in Hex as (x & Hx & Hk).
      apply same_key_spec in Hl, Hk. rewrite Hl, <- Hk. by apply in_map.
    + by apply filter_hit_none.
  - intros Hex. by apply IH.
Qed.

(** What the upsert does to a table that satisfies the constraint. *)
Lemma upsert_reminder_log_spec (db : Database) :
  logs_unique db ->
  exists row,
    fst (upsert_reminder_log mid st day at_ db) = Return [row]
    /\ medications (snd (upsert_reminder_log mid st day at_ db)) = medications db
    /\ row = ReminderLog.mk (ReminderLog.id row) mid st day at_
    /\ logs_unique (snd (upsert_reminder_log mid st day at_ db))
    /\ bfilter (same_key mid day)
               (reminder_logs (snd (upsert_reminder_log mid st day at_ db))) = [row]
    /\ bfilter (fun l => negb (same_key mid day l))
               (reminder_logs (snd (upsert_reminder_log mid st day at_ db)))
       = bfilter (fun l => negb (same_key mid day l)) (reminder_logs db)
    /\ (if existsb (same_key mid day) (reminder_logs db)
        then length (reminder_logs (snd (upsert_reminder_log mid st day at_ db)))
             = length (reminder_logs db)
             /\ exists old, bfilter (same_key mid day) (reminder_logs db) = [old]
                            /\ ReminderLog.id row = ReminderLog.id old
        else length (reminder_logs (snd (upsert_reminder_log mid st day at_ db)))
             = S (length (reminder_logs db))
             /\ ReminderLog.id row = reminder_logs_seq db).
Proof.
  unfold logs_unique, upsert_reminder_log. intros Hnd. simpl.
  destruct (existsb (same_key mid day) (reminder_logs db)) eqn:Hex.
  - fold upd. rewrite filter_hit_upd, filter_miss_upd.
    destruct (filter_hit_unique _ Hnd Hex) as [old Hold]. rewrite Hold. simpl.
    exists (ow old). repeat split.
    + rewrite map_map. erewrite map_ext; [exact Hnd|]. intros l. apply log_key_upd.
    + by rewrite length_map.
    + by exists old.
  - destruct (filter_hit_none _ Hex) as [Hnone Hfresh].
    unfold bfilter in *. rewrite !List.filter_app, Hnone. simpl.
    pose proof (same_key_overwrite (ReminderLog.mk (reminder_logs_seq db) mid st day at_)) as Hk.
    unfold ow in Hk. simpl in Hk. rewrite Hk. simpl.
    eexists. repeat split.
    + rewrite map_app. simpl. apply NoDup_app. repeat split.
      * exact Hnd.
      * intros k Hin Hk'. apply list_elem_of_In in Hin.
        apply list_elem_of_In in Hk'. destruct Hk' as [<-|[]]. by apply Hfresh.
      * apply NoDup_singleton.
    + by rewrite app_nil_r.
    + rewrite length_app. simpl. lia.
Qed.
End Upsert.

Lemma acknowledge_med_up (req : AcknowledgeRequest) (w : World) (db : Database) :
  supabase w = Some db ->
  adapter_up 1 w = true ->
  logs_unique db ->
  exists row db' w',
    acknowledge_med req w = (Return row, w')
    /\ supabase w' = Some db'
    /\ row = ReminderLog.mk (ReminderLog.id row) (req_medication_id req)
                            (req_status req) (today w) (now w)
    /\ logs_unique db'
    /\ medications db' = medications db
    /\ bfilter (same_key (req_medication_id req) (today w)) (reminder_logs db') = [row]
    /\ bfilter (fun l => negb (same_key (req_medication_id req) (today w) l))
               (reminder_logs db')
       = bfilter (fun l => negb (same_key (req_medication_id req) (today w) l))
                 (reminder_logs db)
    /\ (if existsb (same_key (req_medication_id req) (today w)) (reminder_logs db)
        then length (reminder_logs db') = length (reminder_logs db)
             /\ exists old,
                  bfilter (same_key (req_medication_id req) (today w)) (reminder_logs db)
                  = [old]
                  /\ ReminderLog.id row = ReminderLog.id old
        else length (reminder_logs db') = S (length (reminder_logs db))
             /\ ReminderLog.id row = reminder_logs_seq db).
Proof.
  intros Hdb Hup Huniq.
  set (q := upsert_reminder_log (req_medication_id req) (req_status req) (today w) (now w)).
  destruct (execute_up q w db 0 Hdb Hup) as [E _].
  destruct (upsert_reminder_log_spec (req_medication_id req) (req_status req)
              (today w) (now w) db Huniq)
    as (row & Hfst & Hmeds & Hrow & Hu & Hhit & Hmiss & Hlen).
  fold q in Hfst, Hmeds, Hu, Hhit, Hmiss, Hlen.
  exists row, (snd (q db)), (set_store (Some (snd (q db))) (tail (faults w)) w).
  split.
  { unfold acknowledge_med. run_handler. fold q. rewrite E, Hfst. reflexivity. }
  repeat split; assumption || reflexivity.
Qed.

(** C5. An acknowledge request carries a medication id and a status and
    nothing else.  When the upsert goes through on a table that satisfies
    the uniqueness constraint, the persisted log has [taken_on] equal to
    the server's date, it is the only log of the table with its
    (medication_id, taken_on) pair, the constraint still holds, and the
    logs with other pairs are as before.  A second acknowledgment of the
    same medication on the same date leaves the number of logs unchanged:
    the log of the first one is replaced by a log with the same id and
    the status of the second request. *)
Theorem acknowledge_med_one_log_per_day
    (req : AcknowledgeRequest) (w : World) (db : Database) :
  supabase w = Some db ->
  adapter_up 1 w = true ->
  logs_unique db ->
  exists row db' w',
    acknowledge_med req w = (Return row, w')
    /\ supabase w' = Some db'
    /\ ReminderLog.taken_on row = today w
    /\ ReminderLog.medication_id row = req_medication_id req
    /\ ReminderLog.status row = req_status req
    /\ logs_unique db'
    /\ bfilter (same_key (req_medication_id req) (today w)) (reminder_logs db') = [row]
    /\ bfilter (fun l => negb (same_key (req_medication_id req) (today w) l))
               (reminder_logs db')
       = bfilter (fun l => negb (same_key (req_medication_id req) (today w) l))
                 (reminder_logs db)
    /\ (forall req2 w2,
          req_medication_id req2 = req_medication_id req ->
          supabase w2 = Some db' ->
          today w2 = today w ->
          adapter_up 1 w2 = true ->
          exists row2 db'' w2',
            acknowledge_med req2 w2 = (Return row2, w2')
            /\ supabase w2' = Some db''
            /\ length (reminder_logs db'') = length (reminder_logs db')
            /\ bfilter (same_key (req_medication_id req) (today w)) (reminder_logs db'')
               = [row2]
            /\ ReminderLog.id row2 = ReminderLog.id row
            /\ ReminderLog.status row2 = req_status req2
            /\ ReminderLog.taken_on row2 = today w).
Proof.
  intros Hdb Hup Huniq.
  destruct (acknowledge_med_up req w db Hdb Hup Huniq)
    as (row & db' & w' & E & Hdb' & Hrow & Hu & _ & Hhit & Hmiss & _).
  exists row, db', w'.
  split; [exact E|]. split; [exact Hdb'|].
  split; [by rewrite Hrow|]. split; [by rewrite Hrow|]. split; [by rewrite Hrow|].
  split; [exact Hu|]. split; [exact Hhit|]. split; [exact Hmiss|].
  intros req2 w2 Hmid Hdb2 Hday Hup2.
  destruct (acknowledge_med_up req2 w2 db' Hdb2 Hup2 Hu)
    as (row2 & db'' & w2' & E2 & Hdb'' & Hrow2 & _ & _ & Hhit2 & _ & Hlen2).
  rewrite Hmid, Hday in Hhit2, Hlen2.
  assert (existsb (same_key (req_medication_id req) (today w)) (reminder_logs db') = true)
    as Hex.
  { apply existsb_exists. exists row.
    assert (In row (bfilter (same_key (req_medication_id req) (today w))
                            (reminder_logs db'))) as Hin
      by (rewrite Hhit; by left).
    by apply filter_In in Hin. }
  rewrite Hex in Hlen2. destruct Hlen2 as (Hlen & old & Hold & Hid).
  rewrite Hhit in Hold. injection Hold as <-.
  exists row2, db'', w2'.
  repeat split; try assumption; rewrite Hrow2; simpl; congruence.
Qed.

Lemma acknowledge_med_one_log_per_day_witness :
  exists row db' w',
    acknowledge_med (mkAcknowledgeRequest 7 "taken")
                    (quiet_world (Some empty_database) []) = (Return row, w')
    /\ supabase w' = Some db'
    /\ ReminderLog.taken_on row = "2024-05-01"
    /\ ReminderLog.status row = "taken".
Proof.
  destruct (acknowledge_med_one_log_per_day (mkAcknowledgeRequest 7 "taken")
              (quiet_world (Some empty_database) []) empty_database
              eq_refl eq_refl (NoDup_nil_2 : logs_unique empty_database))
    as (row & db' & w' & E & Hdb & Hday & _ & Hst & _).
  exists row, db', w'. auto.
Defined.

(* ===================================================================== *)
(** * Soft delete: results *)
(* ===================================================================== *)

Lemma soft_deleted_frame (med_id : Z) (m : Medication.t) :
  Medication.deactivate (soft_deleted med_id m) = Medication.deactivate m
  /\ Medication.id (soft_deleted med_id m) = Medication.id m
  /\ Medication.is_active (soft_deleted med_id m)
     = Medication.is_active m && negb (Medication.id m =? med_id)%Z.
Proof.
  unfold soft_deleted. destruct (Medication.id m =? med_id)%Z; simpl.
  - by rewrite andb_false_r.
  - by rewrite andb_true_r.
Qed.

Lemma soft_deleted_idem (med_id : Z) (m : Medication.t) :
  soft_deleted med_id (soft_deleted med_id m) = soft_deleted med_id m.
Proof.
  unfold soft_deleted. destruct (Medication.id m =? med_id)%Z eqn:E; simpl.
  - by rewrite E.
  - by rewrite E.
Qed.

Lemma active_for_soft_deleted (med_id senior_id : Z) (m : Medication.t) :
  active_for senior_id (soft_deleted med_id m)
  = active_for senior_id m && negb (Medication.id m =? med_id)%Z.
Proof.
  unfold active_for, med_of_senior, soft_deleted.
  destruct (Medication.id m =? med_id)%Z; simpl.
  - by rewrite !andb_false_r.
  - by rewrite andb_true_r.
Qed.

Lemma active_after_soft_delete (med_id senior_id : Z) (meds : list Medication.t) :
  bfilter (active_for senior_id) (map (soft_deleted med_id) meds)
  = bfilter (fun m => negb (Medication.id m =? med_id)%Z)
            (bfilter (active_for senior_id) meds).
Proof.
  unfold bfilter. induction meds as [|m meds IH]; simpl; [reflexivity|].
  rewrite active_for_soft_deleted, IH.
  destruct (active_for senior_id m); simpl; [|reflexivity].
  unfold soft_deleted.
  destruct (Medication.id m =? med_id)%Z; reflexivity.
Qed.

Lemma get_medications_up (senior_id : Z) (w : World) (db : Database) :
  supabase w = Some db ->
  adapter_up 1 w = true ->
  exists w', get_medications senior_id w = (Return (active_medications senior_id db), w').
Proof.
  intros Hdb Hup.
  destruct (execute_up (select_active_medications senior_id) w db 0 Hdb Hup) as [E _].
  eexists. unfold get_medications. run_handler. rewrite E. reflexivity.
Qed.

Lemma delete_medication_up (med_id : Z) (w : World) (db : Database) :
  supabase w = Some db ->
  adapter_up 1 w = true ->
  exists w',
    delete_medication med_id w = (Return (mkAck "deleted"), w')
    /\ supabase w' = Some (mkDatabase (seniors db)
                                      (map (soft_deleted med_id) (medications db))
                                      (reminder_logs db)
                                      (medications_seq db) (reminder_logs_seq db)).
Proof.
  intros Hdb Hup.
  destruct (execute_up (update_medication_inactive med_id) w db 0 Hdb Hup) as [E _].
  eexists. unfold delete_medication. run_handler. rewrite E. simpl.
  split; reflexivity.
Qed.

(** C6. When the update goes through, deleting a medication id reports
    [{"status": "deleted"}] whether or not a row has that id and whether
    or not it was active.  It leaves the reminder logs and the seniors as
    they were, keeps every medication row and all its columns except that
    [is_active] becomes false on the rows with that id, so that the
    active-medication listing of every senior afterwards is the listing
    before without that id.  Deleting the same id again reports the same
    and changes nothing. *)
Theorem delete_medication_soft (med_id : Z) (w : World) (db : Database) :
  supabase w = Some db ->
  adapter_up 1 w = true ->
  exists db' w',
    delete_medication med_id w = (Return (mkAck "deleted"), w')
    /\ supabase w' = Some db'
    /\ reminder_logs db' = reminder_logs db
    /\ seniors db' = seniors db
    /\ length (medications db') = length (medications db)
    /\ (forall i m,
          medications db !! i = Some m ->
          exists m',
            medications db' !! i = Some m'
            /\ Medication.deactivate m' = Medication.deactivate m
            /\ Medication.is_active m'
               = Medication.is_active m && negb (Medication.id m =? med_id)%Z)
    /\ (forall senior_id w2,
          supabase w2 = Some db' ->
          adapter_up 1 w2 = true ->
          exists w2',
            get_medications senior_id w2
            = (Return (bfilter (fun m => negb (Medication.id m =? med_id)%Z)
                               (active_medications senior_id db)), w2'))
    /\ (forall senior_id m,
          In m (active_medications senior_id db') -> Medication.id m <> med_id)
    /\ (forall w2,
          supabase w2 = Some db' ->
          adapter_up 1 w2 = true ->
          exists w2',
            delete_medication med_id w2 = (Return (mkAck "deleted"), w2')
            /\ supabase w2' = Some db').
Proof.
  intros Hdb Hup.
  destruct (delete_medication_up med_id w db Hdb Hup) as (w' & E & Hdb').
  eexists _, w'. split; [exact E|]. split; [exact Hdb'|]. simpl.
  split; [reflexivity|]. split; [reflexivity|].
  split; [by rewrite length_map|].
  split.
  { intros i m Hi. exists (soft_deleted med_id m). split.
    - by rewrite list_lookup_fmap, Hi.
    - pose proof (soft_deleted_frame med_id m) as (H1 & _ & H3). by split. }
  split.
  { intros senior_id w2 Hdb2 Hup2.
    destruct (get_medications_up senior_id w2 _ Hdb2 Hup2) as (w2' & E2).
    exists w2'. rewrite E2. unfold active_medications. simpl.
    by rewrite active_after_soft_delete. }
  split.
  { intros senior_id m. unfold active_medications. simpl.
    rewrite active_after_soft_delete. intros Hin.
    apply filter_In in Hin as [_ Hne]. apply negb_true_iff in Hne. lia. }
  intros w2 Hdb2 Hup2.
  destruct (delete_medication_up med_id w2 _ Hdb2 Hup2) as (w2' & E2 & Hdb2').
  exists w2'. split; [exact E2|]. rewrite Hdb2'. simpl.
  rewrite map_map. do 2 f_equal. apply map_ext. intros m. apply soft_deleted_idem.
Qed.

Lemma delete_medication_soft_witness :
  exists db' w',
    delete_medication 1 (quiet_world (Some sample_database) []) = (Return (mkAck "deleted"), w')
    /\ supabase w' = Some db'
    /\ reminder_logs db' = reminder_logs sample_database
    /\ (forall senior_id m,
          In m (active_medications senior_id db') -> Medication.id m <> 1%Z).
Proof.
  destruct (delete_medication_soft 1 (quiet_world (Some sample_database) [])
              sample_database eq_refl eq_refl)
    as (db' & w' & E & Hdb & Hlogs & _ & _ & _ & _ & Hgone & _).
  exists db', w'. auto.
Defined.

(* ===================================================================== *)
(** * Senior profile: results *)
(* ===================================================================== *)

Lemma get_senior_except (senior_id : Z) (w : World) (e : exn) (w' : World) :
  execute (select_senior_single senior_id) w = (Raise e, w') ->
  get_senior senior_id w = (Return fallback_profile, w').
Proof. intros E. unfold get_senior. run_handler. by rewrite E. Qed.

Lemma select_senior_single_raises (senior_id : Z) (db : Database) :
  (forall s, bfilter (fun s => (Senior.id s =? senior_id)%Z) (seniors db) <> [s]) ->
  exists e, select_senior_single senior_id db = (Raise e, db).
Proof.
  intros Hno. unfold select_senior_single.
  destruct (bfilter _ (seniors db)) as [|s [|s' rest]] eqn:E; eauto.
  by destruct (Hno s).
Qed.

Lemma fallback_path_cases (senior_id : Z) (w : World) :
  (adapter_up 1 w = false
   \/ exists db, supabase w = Some db
        /\ forall s, bfilter (fun s => (Senior.id s =? senior_id)%Z) (seniors db) <> [s]) ->
  fallback_path senior_id w.
Proof.
  intros [Hdown|(db & Hdb & Hno)].
  - by apply execute_down.
  - destruct (adapter_up 1 w) eqn:Hup; [|by apply execute_down].
    destruct (execute_up (select_senior_single senior_id) w db 0 Hdb Hup) as [E _].
    destruct (select_senior_single_raises senior_id db Hno) as [e He].
    rewrite He in E. simpl in E. red. eauto.
Qed.

(** C9. Without a Supabase URL or key the module leaves [supabase] unset
    and defines its in-memory demo record and lists.  In that mode every
    read handler answers with a fixed value and no error: the fallback
    profile, the empty medication list, the empty schedule and the
    all-zero summary.  [get_senior] answers with the fallback profile on
    every failure of its request: a missing client, a failed request, no
    row or several rows with the requested id. *)
Theorem demo_fallback_mode :
  (forall url key remote,
      url = "" \/ key = "" ->
      module_init url key remote
      = mkGlobals None
          (Some (mkInMemory (Senior.mk 1 "Demo Senior" "Call 911 if unconscious.") [] [])))
  /\ (forall url key remote,
        url <> "" -> key <> "" ->
        module_init url key remote = mkGlobals (Some remote) None)
  /\ (forall senior_id w,
        supabase w = None ->
        get_senior senior_id w = (Return fallback_profile, w)
        /\ get_medications senior_id w = (Return [], w)
        /\ get_today_schedule senior_id w = (Return [], w)
        /\ get_adherence_summary senior_id w = (Return zero_summary, w))
  /\ (forall senior_id w,
        (adapter_up 1 w = false
         \/ exists db, supabase w = Some db
              /\ forall s, bfilter (fun s => (Senior.id s =? senior_id)%Z) (seniors db) <> [s]) ->
        exists w', get_senior senior_id w = (Return fallback_profile, w')).
Proof.
  split.
  { intros url key remote [-> | ->]; unfold module_init; simpl; [reflexivity|].
    by rewrite andb_false_r. }
  split.
  { intros [|a u] [|b k] remote Hu Hk; try done. }
  split.
  { intros senior_id w Hnone.
    unfold get_senior, get_medications, get_today_schedule, get_adherence_summary,
      execute.
    run_handler. rewrite Hnone. auto. }
  intros senior_id w H.
  destruct (fallback_path_cases senior_id w H) as (e & w' & E).
  exists w'. by apply get_senior_except with e.
Qed.

(** C10. Whenever the request of [get_senior] raises, whatever id was
    asked for, the answer is the one fixed record, whose id is 1; so on
    that path the answers to any two requests are equal. *)
Theorem get_senior_fallback_ignores_id (senior_id : Z) (w : World) :
  fallback_path senior_id w ->
  exists w',
    get_senior senior_id w = (Return fallback_profile, w')
    /\ Senior.id fallback_profile = 1%Z
    /\ forall other w2,
         fallback_path other w2 ->
         fst (get_senior other w2) = fst (get_senior senior_id w).
Proof.
  intros (e & w' & E). exists w'.
  pose proof (get_senior_except senior_id w e w' E) as G.
  split; [exact G|]. split; [reflexivity|].
  intros other w2 (e2 & w2' & E2).
  rewrite G, (get_senior_except other w2 e2 w2' E2). reflexivity.
Qed.

Lemma get_senior_fallback_ignores_id_witness :
  exists w',
    get_senior 42 (quiet_world (Some empty_database) []) = (Return fallback_profile, w')
    /\ Senior.id fallback_profile = 1%Z
    /\ forall other w2,
         fallback_path other w2 ->
         fst (get_senior other w2)
         = fst (get_senior 42 (quiet_world (Some empty_database) [])).
Proof.
  apply (get_senior_fallback_ignores_id 42 (quiet_world (Some empty_database) [])).
  do 2 eexists. reflexivity.
Defined.

(* ===================================================================== *)
(** * Simplify and translate: results *)
(* ===================================================================== *)

Lemma log_events_nil (w : World) : log_events [] w = w.
Proof. destruct w. unfold log_events. simpl. by rewrite app_nil_r. Qed.

Lemma log_events_app (evs1 evs2 : list event) (w : World) :
  log_events evs2 (log_events evs1 w) = log_events (evs1 ++ evs2) w.
Proof. unfold log_events. simpl. by rewrite app_assoc. Qed.

Lemma log_event_events (e : event) (w : World) : log_event e w = log_events [e] w.
Proof. reflexivity. Qed.

Lemma chat_or_run (req : ChatRequest) (fallback : string) (w : World) :
  chat_or req fallback w = (Return (chat_reply w req fallback), log_events [EvChat req] w).
Proof.
  unfold chat_or, chat_reply, emit. run_handler. simpl.
  destruct (chat w req); reflexivity.
Qed.

Lemma openai_simplify_run (text : string) (w : World) :
  openai_simplify text w
  = (Return (simplified text w), log_events (EvSimplify text :: simplify_calls text w) w).
Proof.
  unfold openai_simplify, simplified, simplify_calls, emit. run_handler. simpl.
  destruct (Py.truthy_str (OPENAI_API_KEY w)) eqn:K; simpl.
  - rewrite chat_or_run, log_event_events, log_events_app. reflexivity.
  - reflexivity.
Qed.

Lemma openai_translate_run (text target : string) (w : World) :
  openai_translate text target w
  = (Return (llm_translated text target w),
     log_events (EvOpenAITranslate text target :: llm_translate_calls text target w) w).
Proof.
  unfold openai_translate, llm_translated, llm_translate_calls, emit. run_handler. simpl.
  destruct (Py.truthy_str (OPENAI_API_KEY w)) eqn:K; simpl.
  - rewrite chat_or_run, log_event_events, log_events_app. reflexivity.
  - reflexivity.
Qed.

Lemma call_lingo_translate_run (text target : string) (w : World) :
  call_lingo_translate text target w
  = (Return (lingo_result text target w),
     log_events (EvLingo text target :: lingo_calls text target w) w).
Proof.
  unfold call_lingo_translate, lingo_result, lingo_calls, lingo_configured, lingo_url, emit.
  run_handler. simpl.
  destruct (Py.truthy_str (LINGO_API_KEY w)); simpl; [|reflexivity].
  destruct (Py.truthy_str (LINGO_PROJECT_ID w)); simpl; [|reflexivity].
  rewrite !log_event_events, log_events_app. simpl.
  destruct (lingo_post w _ text target) as [|code [[]|]]; try reflexivity;
    destruct (code =? 200)%Z; reflexivity.
Qed.

Lemma translate_run (req : TranslateRequest) (w : World) :
  Py.strip (req_text req) <> "" ->
  translate req w
  = (Return (translate_response (Py.strip (req_text req)) (Py.strip (req_target_lang req)) w),
     log_events (translate_calls (Py.strip (req_text req))
                                 (Py.strip (req_target_lang req)) w) w).
Proof.
  intros Htext. unfold translate, translate_response, translate_calls.
  set (text := Py.strip (req_text req)) in *.
  set (target := Py.strip (req_target_lang req)).
  assert (Py.truthy_str text = true) as -> by (destruct text; done).
  run_handler. simpl.
  rewrite openai_simplify_run.
  set (s := simplified text w).
  rewrite call_lingo_translate_run.
  change (lingo_result s target (log_events _ w)) with (lingo_result s target w).
  change (lingo_calls s target (log_events _ w)) with (lingo_calls s target w).
  rewrite log_events_app.
  destruct (truthy (lingo_result s target w)) eqn:Ht.
  - rewrite app_nil_r. reflexivity.
  - rewrite openai_translate_run.
    change (llm_translated s target (log_events _ w)) with (llm_translated s target w).
    change (llm_translate_calls s target (log_events _ w))
      with (llm_translate_calls s target w).
    rewrite log_events_app, <- app_assoc. reflexivity.
Qed.

(** The [except] branch of [translate] is dead code: [openai_translate]
    always returns. *)
Lemma openai_translate_returns (text target : string) (w : World) :
  exists s w', openai_translate text target w = (Return s, w').
Proof. rewrite openai_translate_run. eauto. Qed.

(** C8. On a text that is not blank, [translate] first runs
    [openai_simplify] on the stripped text and only then
    [call_lingo_translate], on what the simplification returned.  With a
    language-model key the model is asked to simplify before any
    translation request is made, and the simplified text is its stripped
    reply, or the text itself when that call fails; without a key nothing
    is sent for the simplification and the text passes through.  Every
    later call carries the simplified text.  When Lingo.dev returns a
    truthy value, the response is that value tagged "lingo.dev" and the
    language model is not asked to translate. *)
Theorem translate_simplifies_first_lingo_wins (req : TranslateRequest) (w : World) :
  Py.strip (req_text req) <> "" ->
  exists s w1 translation w2 resp w' pre post,
    openai_simplify (Py.strip (req_text req)) w = (Return s, w1)
    /\ call_lingo_translate s (Py.strip (req_target_lang req)) w1 = (Return translation, w2)
    /\ translate req w = (Return resp, w')
    /\ trace w' = trace w ++ EvSimplify (Py.strip (req_text req)) :: pre
                          ++ EvLingo s (Py.strip (req_target_lang req)) :: post
    /\ (OPENAI_API_KEY w <> "" ->
          pre = [EvChat (simplify_chat (Py.strip (req_text req)))]
          /\ s = match chat w (simplify_chat (Py.strip (req_text req))) with
                 | Some content => Py.strip content
                 | None => Py.strip (req_text req)
                 end)
    /\ (OPENAI_API_KEY w = "" -> pre = [] /\ s = Py.strip (req_text req))
    /\ (forall ev, In ev pre -> ev = EvChat (simplify_chat (Py.strip (req_text req))))
    /\ (forall ev, In ev post ->
          (exists url, ev = EvHttpPost url s (Py.strip (req_target_lang req)))
          \/ (truthy translation = false
              /\ (ev = EvOpenAITranslate s (Py.strip (req_target_lang req))
                  \/ ev = EvChat (translate_chat s (Py.strip (req_target_lang req))))))
    /\ (truthy translation = true ->
          resp = mkTranslateResponse translation (Py.strip (req_target_lang req))
                                     "lingo.dev" (Some "senior-simplified")
          /\ w' = w2).
Proof.
  intros Htext.
  set (text := Py.strip (req_text req)) in *.
  set (target := Py.strip (req_target_lang req)).
  set (s := simplified text w).
  set (t := lingo_result s target w).
  exists s, (log_events (EvSimplify text :: simplify_calls text w) w), t,
    (log_events ((EvSimplify text :: simplify_calls text w)
                 ++ EvLingo s target :: lingo_calls s target w) w),
    (translate_response text target w),
    (log_events (translate_calls text target w) w),
    (simplify_calls text w),
    (lingo_calls s target w
     ++ (if truthy t then [] else EvOpenAITranslate s target :: llm_translate_calls s target w)).
  split; [apply openai_simplify_run|].
  split; [by rewrite call_lingo_translate_run, log_events_app|].
  split; [by apply translate_run|].
  split.
  { unfold translate_calls. fold s t. simpl. reflexivity. }
  split.
  { intros Hkey. unfold simplify_calls, s, simplified, chat_reply.
    assert (Py.truthy_str (OPENAI_API_KEY w) = true) as ->
        by (by destruct (OPENAI_API_KEY w)).
    by split. }
  split.
  { intros Hkey. unfold simplify_calls, s, simplified. rewrite Hkey. by split. }
  split.
  { unfold simplify_calls. intros ev. destruct (Py.truthy_str _); simpl; intuition. }
  split.
  { intros ev Hin. apply in_app_or in Hin as [Hin|Hin].
    - left. unfold lingo_calls in Hin. destruct (lingo_configured w); simpl in Hin;
        [|done]. destruct Hin as [<-|[]]. eauto.
    - right. destruct (truthy t); [done|]. split; [done|].
      unfold llm_translate_calls in Hin.
      destruct (Py.truthy_str _); simpl in Hin; intuition. }
  intros Ht. unfold translate_response, translate_calls. fold s t. rewrite Ht.
  by rewrite app_nil_r.
Qed.

Lemma translate_simplifies_first_lingo_wins_witness :
  exists resp w',
    translate (mkTranslateRequest "Take your pill" "hi") both_providers_world
    = (Return resp, w')
    /\ resp = mkTranslateResponse (JStr "from lingo") "hi" "lingo.dev"
                                  (Some "senior-simplified")
    /\ trace w'
       = [EvSimplify "Take your pill";
          EvChat (simplify_chat "Take your pill");
          EvLingo "from the model" "hi";
          EvHttpPost "https://api.lingo.dev/v1/projects/proj/translate"
                     "from the model" "hi"].
Proof.
  destruct (translate_simplifies_first_lingo_wins
              (mkTranslateRequest "Take your pill" "hi") both_providers_world)
    as (s & w1 & t & w2 & resp & w' & pre & post
        & E1 & E2 & E & Htr & _ & _ & _ & _ & Hwin).
  - vm_compute. discriminate.
  - exists resp, w'. split; [exact E|].
    rewrite openai_simplify_run in E1. injection E1 as <- <-.
    rewrite call_lingo_translate_run in E2. injection E2 as <- <-.
    destruct Hwin as [-> ->]; [reflexivity|]. split; reflexivity.
Defined.

(** C3 (what the code does).  With neither credential configured,
    translate("text", "hi") returns the original text and calls no
    provider, but the response is tagged "openai", with the quality mark,
    and not "none": [openai_translate] returns its input when no key is
    set, so the branch of [translate] that tags "none" is never taken. *)
Theorem translate_without_credentials_tags_openai :
  exists w',
    translate (mkTranslateRequest "text" "hi") (quiet_world None [])
    = (Return (mkTranslateResponse (JStr "text") "hi" "openai"
                                   (Some "senior-simplified")), w')
    /\ OPENAI_API_KEY (quiet_world None []) = ""
    /\ LINGO_API_KEY (quiet_world None []) = ""
    /\ LINGO_PROJECT_ID (quiet_world None []) = ""
    /\ trace w' = [EvSimplify "text"; EvLingo "text" "hi"; EvOpenAITranslate "text" "hi"].
Proof.
  eexists. split; [vm_compute; reflexivity|]. repeat split.
Qed.

(* ===================================================================== *)
(** * Reads and writes under adapter failure *)
(* ===================================================================== *)

(** A request that only selects leaves the store and the trace alone,
    whether it goes through or not. *)
Lemma execute_select_frame {A} (q : request A) (w : World) :
  (forall db, snd (q db) = db) ->
  supabase (snd (execute q w)) = supabase w
  /\ trace (snd (execute q w)) = trace w
  /\ today (snd (execute q w)) = today w.
Proof.
  intros Hsel. unfold execute.
  destruct (supabase w) as [db|] eqn:Hdb; [|simpl; by rewrite Hdb].
  pose proof (Hsel db) as Hq.
  destruct (faults w) as [|[msg|] fs]; simpl; try done;
    destruct (q db) as [r db']; simpl in *; by subst.
Qed.

(** X1. The four read handlers return on every world: they never raise,
    and they leave the database and the provider trace as they were. *)
Theorem read_handlers_never_raise (senior_id : Z) (w : World) :
  (exists r w', get_senior senior_id w = (Return r, w')
                /\ supabase w' = supabase w /\ trace w' = trace w)
  /\ (exists r w', get_medications senior_id w = (Return r, w')
                   /\ supabase w' = supabase w /\ trace w' = trace w)
  /\ (exists r w', get_today_schedule senior_id w = (Return r, w')
                   /\ supabase w' = supabase w /\ trace w' = trace w)
  /\ (exists r w', get_adherence_summary senior_id w = (Return r, w')
                   /\ supabase w' = supabase w /\ trace w' = trace w).
Proof.
  repeat split.
  - unfold get_senior. run_handler.
    assert (forall db, snd (select_senior_single senior_id db) = db) as Hsel.
    { intros db. unfold select_senior_single.
      by destruct (bfilter _ (seniors db)) as [|? [|? ?]]. }
    pose proof (execute_select_frame (select_senior_single senior_id) w Hsel)
      as (F1 & F2 & _).
    destruct (execute (select_senior_single senior_id) w) as [[r|e] w'];
      eexists _, w'; by split.
  - unfold get_medications. run_handler.
    pose proof (execute_select_frame (select_active_medications senior_id) w
                  (fun _ => eq_refl)) as (F1 & F2 & _).
    destruct (execute (select_active_medications senior_id) w) as [[r|e] w'];
      eexists _, w'; by split.
  - unfold get_today_schedule. run_handler.
    pose proof (execute_select_frame (select_active_medications senior_id) w
                  (fun _ => eq_refl)) as (F1 & F2 & F3).
    destruct (execute (select_active_medications senior_id) w) as [[r|e] w1];
      simpl in F1, F2, F3; [|by eexists _, w1].
    pose proof (execute_select_frame (select_logs_on (today w1)) w1
                  (fun _ => eq_refl)) as (G1 & G2 & _).
    destruct (execute (select_logs_on (today w1)) w1) as [[r2|e2] w2];
      simpl in G1, G2; eexists _, w2; (split; [reflexivity|]); split; congruence.
  - unfold get_adherence_summary. run_handler.
    pose proof (execute_select_frame (select_active_medication_ids senior_id) w
                  (fun _ => eq_refl)) as (F1 & F2 & F3).
    destruct (execute (select_active_medication_ids senior_id) w) as [[r|e] w1];
      simpl in F1, F2, F3; [|by eexists _, w1].
    pose proof (execute_select_frame (select_log_ids_on_with_status (today w) "taken") w1
                  (fun _ => eq_refl)) as (G1 & G2 & _).
    destruct (execute (select_log_ids_on_with_status (today w) "taken") w1)
      as [[r2|e2] w2];
      simpl in G1, G2; eexists _, w2; (split; [reflexivity|]); split; congruence.
Qed.

(** X2. When the client is missing or the request fails, each of the four
    write handlers raises HTTP 500 whose detail is the text of the
    underlying error, and the database is left as it was. *)
Theorem write_handlers_fail_with_500 (w : World) :
  adapter_up 1 w = false ->
  exists detail,
    (forall req, exists w',
        add_medication req w = (Raise (HTTPException 500 detail), w')
        /\ supabase w' = supabase w)
    /\ (forall med_id, exists w',
          delete_medication med_id w = (Raise (HTTPException 500 detail), w')
          /\ supabase w' = supabase w)
    /\ (forall req, exists w',
          acknowledge_med req w = (Raise (HTTPException 500 detail), w')
          /\ supabase w' = supabase w)
    /\ (forall senior_id req, exists w',
          update_senior senior_id req w = (Raise (HTTPException 500 detail), w')
          /\ supabase w' = supabase w)
    /\ (supabase w = None -> detail = "'NoneType' object has no attribute 'table'")
    /\ (forall db msg fs,
          supabase w = Some db -> faults w = Some msg :: fs -> detail = msg).
Proof.
  intros Hdown.
  assert (exists detail,
             (forall A (q : request A), exists e w',
                 execute q w = (Raise e, w') /\ supabase w' = supabase w /\ str e = detail)
             /\ (supabase w = None -> detail = "'NoneType' object has no attribute 'table'")
             /\ (forall db msg fs,
                   supabase w = Some db -> faults w = Some msg :: fs -> detail = msg))
    as (detail & Hex & Hnone & Hmsg).
  { unfold adapter_up, execute in *. destruct (supabase w) as [db|] eqn:Hdb.
    - destruct (faults w) as [|[msg|] fs] eqn:Hf; simpl in Hdown; try discriminate.
      exists msg. split; [|split; [done|]].
      + intros A q. eexists _, _. split; [reflexivity|]. by simpl.
      + by intros db' msg' fs' _ [= -> _].
    - eexists. split; [|split; [reflexivity|done]].
      intros A q. eexists _, _. split; [reflexivity|]. by rewrite Hdb. }
  exists detail. repeat split; try assumption.
  - intros req. destruct (Hex _ (insert_medication req true)) as (e & w' & E & F & <-).
    exists w'. unfold add_medication. run_handler. by rewrite E.
  - intros med_id.
    destruct (Hex _ (update_medication_inactive med_id)) as (e & w' & E & F & <-).
    exists w'. unfold delete_medication. run_handler. by rewrite E.
  - intros req.
    destruct (Hex _ (upsert_reminder_log (req_medication_id req) (req_status req)
                       (today w) (now w))) as (e & w' & E & F & <-).
    exists w'. unfold acknowledge_med. run_handler. by rewrite E.
  - intros senior_id req.
    destruct (Hex _ (upsert_senior (Senior.mk senior_id (upd_name req)
                                      (upd_emergency_info req))))
      as (e & w' & E & F & <-).
    exists w'. unfold update_senior. run_handler. by rewrite E.
Qed.

Lemma write_handlers_fail_with_500_witness :
  exists detail,
    (forall req, exists w',
        add_medication req (quiet_world (Some sample_database) [Some "timeout"])
        = (Raise (HTTPException 500 detail), w')
        /\ supabase w' = Some sample_database)
    /\ detail = "timeout".
Proof.
  destruct (write_handlers_fail_with_500
              (quiet_world (Some sample_database) [Some "timeout"]) eq_refl)
    as (detail & Hadd & _ & _ & _ & _ & Hmsg).
  exists detail. split; [exact Hadd|].
  exact (Hmsg sample_database "timeout" [] eq_refl eq_refl).
Defined.

(* ===================================================================== *)
(** * How the handlers compose *)
(* ===================================================================== *)

Lemma add_medication_up (req : MedicationRequest) (w : World) (db : Database) :
  supabase w = Some db ->
  adapter_up 1 w = true ->
  exists w',
    add_medication req w
    = (Return (Medication.mk (medications_seq db) (req_name req) (req_dosage req)
                             (req_time req) (req_frequency req) (req_pill_color req)
                             (req_senior_id req) true), w')
    /\ supabase w' = Some (snd (insert_medication req true db)).
Proof.
  intros Hdb Hup.
  destruct (execute_up (insert_medication req true) w db 0 Hdb Hup) as [E _].
  eexists. unfold add_medication. run_handler. rewrite E. simpl.
  split; reflexivity.
Qed.

(** X3. A medication that is added is stored as a row that has the next
    generated id, is active, and carries every field of the request:
    name, dosage, time, frequency, pill colour and senior id.  The
    reminder logs stay as they were; the active listing of the senior it
    is added for grows by exactly that row, at the end, and the listing
    of every other senior is unchanged. *)
Theorem add_medication_then_list (req : MedicationRequest) (w : World) (db : Database) :
  supabase w = Some db ->
  adapter_up 1 w = true ->
  exists row db' w',
    add_medication req w = (Return row, w')
    /\ supabase w' = Some db'
    /\ row = Medication.mk (medications_seq db) (req_name req) (req_dosage req)
                           (req_time req) (req_frequency req) (req_pill_color req)
                           (req_senior_id req) true
    /\ Medication.id row = medications_seq db
    /\ Medication.is_active row = true
    /\ Medication.name row = req_name req
    /\ Medication.dosage row = req_dosage req
    /\ Medication.time row = req_time req
    /\ Medication.frequency row = req_frequency req
    /\ Medication.pill_color row = req_pill_color req
    /\ Medication.senior_id row = req_senior_id req
    /\ medications db' = medications db ++ [row]
    /\ reminder_logs db' = reminder_logs db
    /\ (forall senior_id w2,
          supabase w2 = Some db' ->
          adapter_up 1 w2 = true ->
          exists w2',
            get_medications senior_id w2
            = (Return (active_medications senior_id db
                       ++ (if bool_decide (req_senior_id req = Some senior_id)
                           then [row] else [])), w2')).
Proof.
  intros Hdb Hup.
  destruct (add_medication_up req w db Hdb Hup) as (w' & E & Hdb').
  eexists _, _, w'. split; [exact E|]. split; [exact Hdb'|]. simpl.
  repeat split.
  intros senior_id w2 Hdb2 Hup2.
  destruct (get_medications_up senior_id w2 _ Hdb2 Hup2) as (w2' & E2).
  exists w2'. rewrite E2. f_equal. f_equal.
  unfold active_medications, bfilter. simpl. rewrite List.filter_app. f_equal.
  simpl. unfold active_for, med_of_senior. simpl.
  destruct (req_senior_id req) as [s|]; simpl.
  - destruct (Z.eqb_spec s senior_id) as [->|Hne]; simpl.
    + by rewrite bool_decide_eq_true_2.
    + rewrite bool_decide_eq_false_2; [done|]. by intros [= ->].
  - done.
Qed.

Lemma add_medication_then_list_witness :
  exists db' w',
    add_medication (pill "Statin" 1) (quiet_world (Some sample_database) [])
    = (Return (Medication.mk 2 "Statin" "1" "08:00" "daily" "white" (Some 1%Z) true), w')
    /\ supabase w' = Some db'.
Proof.
  destruct (add_medication_then_list (pill "Statin" 1)
              (quiet_world (Some sample_database) []) sample_database eq_refl eq_refl)
    as (row & db' & w' & E & Hdb & Hrow & _).
  exists db', w'. rewrite E, Hrow. split; [reflexivity|exact Hdb].
Defined.

Lemma filter_single_member {A} (p : A -> bool) (l : list A) (x y : A) :
  bfilter p l = [x] -> In y l -> p y = true -> y = x.
Proof.
  intros Hf Hin Hp.
  assert (In y (bfilter p l)) as H by (apply filter_In; auto).
  rewrite Hf in H. by destruct H as [<-|[]].
Qed.

(** X4. Once a medication that is active for a senior has been
    acknowledged, that senior's schedule of the same day shows the
    medication with the persisted log, whose status is the acknowledged
    one. *)
Theorem acknowledge_then_schedule
    (req : AcknowledgeRequest) (w : World) (db : Database)
    (senior_id : Z) (m : Medication.t) :
  supabase w = Some db ->
  adapter_up 1 w = true ->
  logs_unique db ->
  In m (active_medications senior_id db) ->
  Medication.id m = req_medication_id req ->
  exists row db' w',
    acknowledge_med req w = (Return row, w')
    /\ supabase w' = Some db'
    /\ ReminderLog.status row = req_status req
    /\ forall w2,
         supabase w2 = Some db' ->
         today w2 = today w ->
         adapter_up 2 w2 = true ->
         exists entries w2',
           get_today_schedule senior_id w2 = (Return entries, w2')
           /\ In (mkEntry m (Some row)) entries.
Proof.
  intros Hdb Hup Huniq Hm Hid.
  destruct (acknowledge_med_up req w db Hdb Hup Huniq)
    as (row & db' & w' & E & Hdb' & Hrow & _ & Hmeds & Hhit & _ & _).
  exists row, db', w'. split; [exact E|]. split; [exact Hdb'|].
  split; [by rewrite Hrow|].
  intros w2 Hdb2 Hday Hup2.
  destruct (get_today_schedule_up senior_id w2 db' Hdb2 Hup2) as (w2' & E2 & _).
  eexists _, w2'. split; [exact E2|].
  apply in_map_iff. exists m. split.
  2:{ unfold active_medications in *. by rewrite Hmeds. }
  f_equal. rewrite Hday, Hid.
  assert (In row (reminder_logs db')
          /\ same_key (req_medication_id req) (today w) row = true) as [Hin Hkey].
  { assert (In row (bfilter (same_key (req_medication_id req) (today w))
                            (reminder_logs db'))) as H by (rewrite Hhit; by left).
    by apply filter_In in H. }
  destruct (logs_by_medication _ !! req_medication_id req) as [l|] eqn:Hl.
  - f_equal.
    apply logs_fold_Some in Hl as [[Hl Hk]|Hl]; [|by rewrite lookup_empty in Hl].
    apply filter_In in Hl as [Hl Hd].
    apply (filter_single_member _ _ _ _ Hhit Hl).
    unfold same_key. rewrite Hd. by rewrite Hk, Z.eqb_refl.
  - exfalso. apply logs_fold_None in Hl as [_ Hall].
    apply (Hall row).
    + apply filter_In. split; [exact Hin|].
      unfold same_key in Hkey. by apply andb_prop in Hkey as [_ ?].
    + unfold same_key in Hkey. apply andb_prop in Hkey as [Hk _]. lia.
Qed.

Lemma acknowledge_then_schedule_witness :
  exists row db' w',
    acknowledge_med (mkAcknowledgeRequest 1 "missed")
                    (quiet_world (Some sample_database) []) = (Return row, w')
    /\ supabase w' = Some db'
    /\ ReminderLog.status row = "missed".
Proof.
  destruct (acknowledge_then_schedule (mkAcknowledgeRequest 1 "missed")
              (quiet_world (Some sample_database) []) sample_database 1
              (Medication.mk 1 "Aspirin" "1" "08:00" "daily" "white" (Some 1%Z) true)
              eq_refl eq_refl)
    as (row & db' & w' & E & Hdb & Hst & _).
  - apply NoDup_singleton.
  - by left.
  - reflexivity.
  - exists row, db', w'. auto.
Defined.

Lemma filter_split_length {A} (p k : A -> bool) (l : list A) :
  length (bfilter p l)
  = (length (bfilter p (bfilter k l))
     + length (bfilter (fun x => negb (k x)) (bfilter p l)))%nat.
Proof.
  unfold bfilter. induction l as [|x l IH]; simpl; [reflexivity|].
  destruct (p x) eqn:Hp, (k x) eqn:Hk; simpl; rewrite ?Hp, ?Hk; simpl; lia.
Qed.

Lemma filter_filter_swap {A} (p k : A -> bool) (l : list A) :
  bfilter p (bfilter k l) = bfilter k (bfilter p l).
Proof.
  unfold bfilter. induction l as [|x l IH]; simpl; [reflexivity|].
  destruct (p x) eqn:Hp, (k x) eqn:Hk; simpl; rewrite ?Hp, ?Hk; simpl; congruence.
Qed.

(** X5. After an acknowledgment, the taken count of every adherence
    summary of the same day is one (when the acknowledged status is
    "taken") or zero (any other status) plus the number of today's taken
    logs of the other medications before it: acknowledging a medication
    again never counts it twice, and acknowledging it as missed takes it
    out of the count.  The total is untouched. *)
Theorem acknowledge_then_taken_count
    (req : AcknowledgeRequest) (w : World) (db : Database) :
  supabase w = Some db ->
  adapter_up 1 w = true ->
  logs_unique db ->
  exists row db' w',
    acknowledge_med req w = (Return row, w')
    /\ supabase w' = Some db'
    /\ forall senior_id w2,
         supabase w2 = Some db' ->
         today w2 = today w ->
         adapter_up 2 w2 = true ->
         exists summary w2',
           get_adherence_summary senior_id w2 = (Return summary, w2')
           /\ taken summary
              = (taken_weight (req_status req)
                 + len (bfilter (fun l => negb (same_key (req_medication_id req) (today w) l))
                                (taken_logs_on (today w) db)))%Z
           /\ total summary = len (active_medications senior_id db).
Proof.
  intros Hdb Hup Huniq.
  destruct (acknowledge_med_up req w db Hdb Hup Huniq)
    as (row & db' & w' & E & Hdb' & Hrow & _ & Hmeds & Hhit & Hmiss & _).
  exists row, db', w'. split; [exact E|]. split; [exact Hdb'|].
  intros senior_id w2 Hdb2 Hday Hup2.
  destruct (get_adherence_summary_up senior_id w2 db' Hdb2 Hup2) as (w2' & E2 & _).
  eexists _, w2'. split; [exact E2|]. simpl. rewrite Hday. split.
  2:{ unfold active_medications. by rewrite Hmeds. }
  unfold taken_logs_on, len.
  rewrite (filter_split_length _ (same_key (req_medication_id req) (today w))
             (reminder_logs db')).
  rewrite Hhit.
  rewrite <- (filter_filter_swap _ (fun l => negb (same_key (req_medication_id req) (today w) l))
                (reminder_logs db')).
  rewrite Hmiss.
  rewrite (filter_filter_swap _ (fun l => negb (same_key (req_medication_id req) (today w) l))
             (reminder_logs db)).
  rewrite Nat2Z.inj_add. f_equal.
  unfold bfilter, taken_weight. simpl. rewrite Hrow. simpl.
  rewrite String.eqb_refl. simpl.
  by destruct (String.eqb (req_status req) "taken").
Qed.

Lemma acknowledge_then_taken_count_witness :
  exists row db' w',
    acknowledge_med (mkAcknowledgeRequest 1 "taken")
                    (quiet_world (Some sample_database) []) = (Return row, w')
    /\ supabase w' = Some db'
    /\ exists summary w2',
         get_adherence_summary 1 (quiet_world (Some db') []) = (Return summary, w2')
         /\ taken summary = 1%Z.
Proof.
  destruct (acknowledge_then_taken_count (mkAcknowledgeRequest 1 "taken")
              (quiet_world (Some sample_database) []) sample_database
              eq_refl eq_refl (NoDup_singleton _))
    as (row & db' & w' & E & Hdb & Hsum).
  exists row, db', w'. split; [exact E|]. split; [exact Hdb|].
  destruct (Hsum 1%Z (quiet_world (Some db') []) eq_refl eq_refl eq_refl)
    as (summary & w2' & E2 & Htaken & _).
  exists summary, w2'. split; [exact E2|]. rewrite Htaken. reflexivity.
Defined.

(* ===================================================================== *)
(** * Senior profile: stored rows *)
(* ===================================================================== *)

Lemma filter_none {A} (p : A -> bool) (l : list A) :
  (forall y, In y l -> p y = false) -> bfilter p l = [].
Proof.
  unfold bfilter. induction l as [|x l IH]; simpl; [done|].
  intros H. rewrite (H x) by auto. apply IH. auto.
Qed.

Lemma senior_filter_unique (l : list Senior.t) (row : Senior.t) :
  NoDup (map Senior.id l) ->
  In row l ->
  bfilter (fun s => (Senior.id s =? Senior.id row)%Z) l = [row].
Proof.
  unfold bfilter. induction l as [|x l IH]; simpl; [done|].
  intros Hnd Hin. apply NoDup_cons in Hnd as [Hfresh Hnd].
  rewrite list_elem_of_In in Hfresh.
  destruct Hin as [->|Hin].
  - rewrite Z.eqb_refl. f_equal.
    apply (filter_none (fun s => (Senior.id s =? Senior.id row)%Z)).
    intros y Hy. apply Z.eqb_neq. intros Heq.
    apply Hfresh. rewrite <- Heq. by apply in_map.
  - destruct (Z.eqb_spec (Senior.id x) (Senior.id row)) as [Heq|Hne]; [|by apply IH].
    exfalso. apply Hfresh. rewrite Heq. by apply in_map.
Qed.

Lemma get_senior_up (senior_id : Z) (w : World) (db : Database) (row : Senior.t) :
  supabase w = Some db ->
  adapter_up 1 w = true ->
  bfilter (fun s => (Senior.id s =? senior_id)%Z) (seniors db) = [row] ->
  exists w', get_senior senior_id w = (Return row, w') /\ supabase w' = Some db.
Proof.
  intros Hdb Hup Hone.
  destruct (execute_up (select_senior_single senior_id) w db 0 Hdb Hup) as [E _].
  eexists. unfold get_senior. run_handler. rewrite E.
  unfold select_senior_single. rewrite Hone. simpl. split; reflexivity.
Qed.

(** X6. With unique senior ids, asking for the id of a stored senior
    returns exactly that stored row, and not the fallback profile, as
    long as the request goes through. *)
Theorem get_senior_returns_stored_row (w : World) (db : Database) (row : Senior.t) :
  supabase w = Some db ->
  adapter_up 1 w = true ->
  seniors_unique db ->
  In row (seniors db) ->
  exists w', get_senior (Senior.id row) w = (Return row, w').
Proof.
  intros Hdb Hup Huniq Hin.
  destruct (get_senior_up (Senior.id row) w db row Hdb Hup
              (senior_filter_unique _ _ Huniq Hin)) as (w' & E & _).
  by exists w'.
Qed.

Lemma get_senior_returns_stored_row_witness :
  exists w',
    get_senior 1 (quiet_world (Some sample_database) [])
    = (Return (Senior.mk 1 "Asha" "Call her daughter."), w').
Proof.
  apply (get_senior_returns_stored_row (quiet_world (Some sample_database) [])
           sample_database (Senior.mk 1 "Asha" "Call her daughter.") eq_refl eq_refl).
  - apply NoDup_singleton.
  - by left.
Defined.

Lemma senior_replace_spec (row : Senior.t) (l : list Senior.t) :
  NoDup (map Senior.id l) ->
  existsb (fun s => (Senior.id s =? Senior.id row)%Z) l = true ->
  bfilter (fun s => (Senior.id s =? Senior.id row)%Z)
          (map (fun s => if (Senior.id s =? Senior.id row)%Z then row else s) l) = [row]
  /\ map Senior.id (map (fun s => if (Senior.id s =? Senior.id row)%Z then row else s) l)
     = map Senior.id l
  /\ bfilter (fun s => negb (Senior.id s =? Senior.id row)%Z)
             (map (fun s => if (Senior.id s =? Senior.id row)%Z then row else s) l)
     = bfilter (fun s => negb (Senior.id s =? Senior.id row)%Z) l.
Proof.
  unfold bfilter. induction l as [|x l IH]; simpl; [discriminate|].
  intros Hl Hex. apply NoDup_cons in Hl as [Hfresh Hl].
  rewrite list_elem_of_In in Hfresh.
  destruct (Z.eqb_spec (Senior.id x) (Senior.id row)) as [Hx|Hx]; simpl.
  - rewrite Z.eqb_refl. simpl.
    assert (forall y, In y l -> (Senior.id y =? Senior.id row)%Z = false) as Hno.
    { intros y Hy. apply Z.eqb_neq. intros Heq. apply Hfresh.
      rewrite Hx, <- Heq. by apply in_map. }
    assert (map (fun s => if (Senior.id s =? Senior.id row)%Z then row else s) l = l) as ->.
    { rewrite <- (map_id l) at 2. apply map_ext_in. intros y Hy. by rewrite (Hno y Hy). }
    pose proof (filter_none _ l Hno) as Hnil. unfold bfilter in Hnil. rewrite Hnil.
    by rewrite Hx.
  - destruct (Z.eqb_spec (Senior.id x) (Senior.id row)) as [|_]; [done|]. simpl.
    destruct (IH Hl Hex) as (-> & -> & ->). done.
Qed.

Lemma upsert_senior_spec (row : Senior.t) (db : Database) :
  seniors_unique db ->
  fst (upsert_senior row db) = Return [row]
  /\ seniors_unique (snd (upsert_senior row db))
  /\ bfilter (fun s => (Senior.id s =? Senior.id row)%Z)
             (seniors (snd (upsert_senior row db))) = [row]
  /\ bfilter (fun s => negb (Senior.id s =? Senior.id row)%Z)
             (seniors (snd (upsert_senior row db)))
     = bfilter (fun s => negb (Senior.id s =? Senior.id row)%Z) (seniors db)
  /\ medications (snd (upsert_senior row db)) = medications db
  /\ reminder_logs (snd (upsert_senior row db)) = reminder_logs db.
Proof.
  unfold seniors_unique, upsert_senior. simpl. intros Hnd.
  destruct (existsb _ (seniors db)) eqn:Hex.
  - destruct (senior_replace_spec row _ Hnd Hex) as (H1 & H2 & H3).
    rewrite H1, H2, H3. done.
  - assert (forall y, In y (seniors db) -> (Senior.id y =? Senior.id row)%Z = false) as Hno.
    { intros y Hy. destruct (Senior.id y =? Senior.id row)%Z eqn:Hy'; [|done].
      assert (existsb (fun s => (Senior.id s =? Senior.id row)%Z) (seniors db) = true)
        by (apply existsb_exists; eauto).
      congruence. }
    pose proof (filter_none _ _ Hno) as Hnil.
    unfold bfilter in *. rewrite !List.filter_app, Hnil. simpl.
    rewrite Z.eqb_refl. simpl. repeat split; try done.
    + rewrite map_app. simpl. apply NoDup_app. repeat split; [done| |apply NoDup_singleton].
      intros k Hk Hk'. apply list_elem_of_In in Hk, Hk'. destruct Hk' as [<-|[]].
      apply in_map_iff in Hk as (y & Hid & Hy).
      specialize (Hno y Hy). apply Z.eqb_neq in Hno. done.
    + by rewrite app_nil_r.
Qed.

(** X7. With unique senior ids, a profile update that goes through
    returns the record made of the path id and the two body fields, keeps
    the ids unique, leaves every other senior, the medications and the
    logs as they were, and a later read of the same id returns that
    record. *)
Theorem update_senior_then_get
    (senior_id : Z) (req : SeniorUpdate) (w : World) (db : Database) :
  supabase w = Some db ->
  adapter_up 1 w = true ->
  seniors_unique db ->
  exists db' w',
    update_senior senior_id req w
    = (Return (Senior.mk senior_id (upd_name req) (upd_emergency_info req)), w')
    /\ supabase w' = Some db'
    /\ seniors_unique db'
    /\ bfilter (fun s => negb (Senior.id s =? senior_id)%Z) (seniors db')
       = bfilter (fun s => negb (Senior.id s =? senior_id)%Z) (seniors db)
    /\ medications db' = medications db
    /\ reminder_logs db' = reminder_logs db
    /\ forall w2,
         supabase w2 = Some db' ->
         adapter_up 1 w2 = true ->
         exists w2',
           get_senior senior_id w2
           = (Return (Senior.mk senior_id (upd_name req) (upd_emergency_info req)), w2').
Proof.
  intros Hdb Hup Huniq.
  set (row := Senior.mk senior_id (upd_name req) (upd_emergency_info req)).
  destruct (upsert_senior_spec row db Huniq) as (Hfst & Hu & Hhit & Hmiss & Hmeds & Hlogs).
  destruct (execute_up (upsert_senior row) w db 0 Hdb Hup) as [E _].
  exists (snd (upsert_senior row db)), (set_store (Some (snd (upsert_senior row db)))
                                          (tail (faults w)) w).
  split.
  { unfold update_senior. run_handler. fold row. rewrite E, Hfst. reflexivity. }
  split; [reflexivity|]. split; [exact Hu|]. split; [exact Hmiss|].
  split; [exact Hmeds|]. split; [exact Hlogs|].
  intros w2 Hdb2 Hup2.
  destruct (get_senior_up senior_id w2 _ row Hdb2 Hup2 Hhit) as (w2' & E2 & _).
  by exists w2'.
Qed.

Lemma update_senior_then_get_witness :
  exists db' w',
    update_senior 1 (mkSeniorUpdate "Asha R." "Call her son.")
                  (quiet_world (Some sample_database) [])
    = (Return (Senior.mk 1 "Asha R." "Call her son."), w')
    /\ supabase w' = Some db'
    /\ exists w2',
         get_senior 1 (quiet_world (Some db') [])
         = (Return (Senior.mk 1 "Asha R." "Call her son."), w2').
Proof.
  destruct (update_senior_then_get 1 (mkSeniorUpdate "Asha R." "Call her son.")
              (quiet_world (Some sample_database) []) sample_database
              eq_refl eq_refl (NoDup_singleton _))
    as (db' & w' & E & Hdb & _ & _ & _ & _ & Hget).
  exists db', w'. split; [exact E|]. split; [exact Hdb|].
  exact (Hget (quiet_world (Some db') []) eq_refl eq_refl).
Defined.

(* ===================================================================== *)
(** * Translate: rejection, tags, degradation *)
(* ===================================================================== *)

Lemma lstrip_blank (s : string) :
  PyStr.all Py.isspace s = true -> Py.lstrip s = EmptyString.
Proof.
  unfold Py.lstrip. induction s as [|c r IH]; [done|].
  intros H. cbn [PyStr.all] in H. apply andb_prop in H as [Hc Hr].
  cbn [Py.lstrip_go Py.space_width]. rewrite Hc. by apply IH.
Qed.

Lemma strip_blank (s : string) :
  PyStr.all Py.isspace s = true -> Py.strip s = EmptyString.
Proof. intros H. unfold Py.strip. by rewrite lstrip_blank. Qed.

(** White space outside ASCII is stripped as well, and a text made of it
    is rejected like an empty one. *)
Lemma strip_unicode_space :
  Py.strip nbsp = ""
  /\ Py.strip ideographic_space = ""
  /\ Py.strip (nbsp ++ "hi" ++ ideographic_space) = "hi"
  /\ Py.strip (" a" ++ nbsp ++ "b ") = ("a" ++ nbsp ++ "b")%string
  /\ forall w, translate (mkTranslateRequest (nbsp ++ " " ++ ideographic_space) "hi") w
               = (Raise (HTTPException 400 "Text is required."), w).
Proof. repeat split. Qed.

(** X8. A text that is empty or made of white space only is rejected with
    HTTP 400 "Text is required." before any provider is called: the world,
    trace included, is unchanged. *)
Theorem translate_rejects_blank_text (req : TranslateRequest) (w : World) :
  PyStr.all Py.isspace (req_text req) = true ->
  translate req w = (Raise (HTTPException 400 "Text is required."), w).
Proof.
  intros Hblank. unfold translate. rewrite (strip_blank _ Hblank). reflexivity.
Qed.

Lemma translate_rejects_blank_text_witness :
  translate (mkTranslateRequest "  " "hi") both_providers_world
  = (Raise (HTTPException 400 "Text is required."), both_providers_world).
Proof.
  apply (translate_rejects_blank_text (mkTranslateRequest "  " "hi") both_providers_world).
  reflexivity.
Defined.

(** X9. On a text that is not blank, [translate] always returns: no
    provider failure reaches the caller.  The response is tagged
    "lingo.dev" or "openai", never "none"; it carries the quality mark
    and the stripped target language; and the database is not touched. *)
Theorem translate_always_answers (req : TranslateRequest) (w : World) :
  Py.strip (req_text req) <> "" ->
  exists resp w',
    translate req w = (Return resp, w')
    /\ (provider resp = "lingo.dev" \/ provider resp = "openai")
    /\ provider resp <> "none"
    /\ quality resp = Some "senior-simplified"
    /\ target_lang resp = Py.strip (req_target_lang req)
    /\ supabase w' = supabase w
    /\ faults w' = faults w.
Proof.
  intros Htext. eexists _, _. split; [by apply translate_run|].
  unfold translate_response.
  destruct (truthy _); simpl; repeat split; auto; discriminate.
Qed.

Lemma translate_always_answers_witness :
  exists resp w',
    translate (mkTranslateRequest "Take your pill" "hi") (quiet_world None [])
    = (Return resp, w')
    /\ provider resp <> "none".
Proof.
  destruct (translate_always_answers (mkTranslateRequest "Take your pill" "hi")
              (quiet_world None []))
    as (resp & w' & E & _ & Hnone & _).
  - vm_compute. discriminate.
  - exists resp, w'. auto.
Defined.

(** X10. When every call to the language model fails and Lingo.dev is
    either not configured or unreachable, the response text is the
    original text, stripped and otherwise unchanged. *)
Theorem translate_degrades_to_original (req : TranslateRequest) (w : World) :
  Py.strip (req_text req) <> "" ->
  (forall r, chat w r = None) ->
  (lingo_configured w = false \/ forall url t g, lingo_post w url t g = HttpError) ->
  exists resp w',
    translate req w = (Return resp, w')
    /\ translated_text resp = JStr (Py.strip (req_text req)).
Proof.
  intros Htext Hllm Hlingo. eexists _, _. split; [by apply translate_run|].
  unfold translate_response.
  assert (forall t g, lingo_result t g w = JNull) as Hnull.
  { intros t g. unfold lingo_result.
    destruct Hlingo as [-> | Hdown]; [done|].
    destruct (lingo_configured w); [|done]. by rewrite Hdown. }
  rewrite Hnull. simpl.
  unfold llm_translated, simplified, chat_reply. rewrite !Hllm.
  by destruct (Py.truthy_str (OPENAI_API_KEY w)).
Qed.

Lemma translate_degrades_to_original_witness :
  exists resp w',
    translate (mkTranslateRequest (nbsp ++ "Take your pill" ++ ideographic_space) "hi")
              failing_providers_world
    = (Return resp, w')
    /\ translated_text resp = JStr "Take your pill".
Proof.
  apply (translate_degrades_to_original
           (mkTranslateRequest (nbsp ++ "Take your pill" ++ ideographic_space) "hi")
           failing_providers_world).
  - vm_compute. discriminate.
  - reflexivity.
  - right. reflexivity.
Defined.

(** X11. [call_lingo_translate] never raises.  Without a key or a project
    id it returns [None] and sends nothing.  With both, it sends exactly
    one request, and returns [None] when the request fails, when the
    status is not 200 and when the body is not a JSON object; on a 200
    object it returns the first truthy value among the keys
    "translation", "translatedText", "result", so an empty "translation"
    does not hide a usable "translatedText". *)
Theorem call_lingo_translate_edges (text target : string) (w : World) :
  exists v w',
    call_lingo_translate text target w = (Return v, w')
    /\ (lingo_configured w = false ->
        v = JNull /\ trace w' = trace w ++ [EvLingo text target])
    /\ (lingo_configured w = true ->
        trace w' = trace w ++ [EvLingo text target; EvHttpPost (lingo_url w) text target]
        /\ match lingo_post w (lingo_url w) text target with
           | HttpError => v = JNull
           | HttpResponse code body =>
               if (code =? 200)%Z then
                 match body with
                 | Some (JObj data) =>
                     if truthy (dict_get "translation" data)
                     then v = dict_get "translation" data
                     else if truthy (dict_get "translatedText" data)
                          then v = dict_get "translatedText" data
                          else v = dict_get "result" data
                 | _ => v = JNull
                 end
               else v = JNull
           end).
Proof.
  eexists _, _. split; [apply call_lingo_translate_run|].
  unfold lingo_result, lingo_calls. split.
  - intros ->. by split.
  - intros ->. split; [reflexivity|].
    destruct (lingo_post w (lingo_url w) text target) as [|code [[]|]]; try done;
      destruct (code =? 200)%Z; try done.
    unfold py_or.
    destruct (truthy (dict_get "translation" fields)) eqn:H1; rewrite ?H1; [done|].
    by destruct (truthy (dict_get "translatedText" fields)).
Qed.

(* ===================================================================== *)
(** * Prescription scan: results *)
(* ===================================================================== *)

Lemma str_app_cons (c : ascii) (r s : string) :
  (String c r ++ s)%string = String c (r ++ s).
Proof. reflexivity. Qed.

Lemma str_app_nil_l (s : string) : ("" ++ s)%string = s.
Proof. reflexivity. Qed.

Lemma str_app_nil_r (s : string) : (s ++ "")%string = s.
Proof.
  induction s as [|c r IH]; [reflexivity|]. by rewrite str_app_cons, IH.
Qed.

Lemma str_app_assoc (a b c : string) : ((a ++ b) ++ c)%string = (a ++ b ++ c)%string.
Proof.
  induction a as [|x a IH]; [reflexivity|]. by rewrite !str_app_cons, IH.
Qed.

Lemma startswith_fence_other (c : ascii) (r : string) :
  negb (Ascii.eqb c "`"%char) = true ->
  PyStr.startswith fence (String c r) = false.
Proof.
  intros Hc. apply negb_true_iff in Hc. rewrite Ascii.eqb_sym in Hc.
  unfold fence. cbn [PyStr.startswith]. by rewrite Hc.
Qed.

Lemma contains_fence_app (pre rest : string) :
  PyStr.contains fence (pre ++ fence ++ rest) = true.
Proof.
  induction pre as [|c p IH]; [reflexivity|].
  rewrite str_app_cons. cbn [PyStr.contains]. rewrite IH. apply orb_true_r.
Qed.

Lemma split_go_fence (pre rest cur : string) :
  no_backtick pre = true ->
  PyStr.split_go fence 0 cur (pre ++ fence ++ rest)
  = (cur ++ pre)%string :: PyStr.split_go fence 0 "" rest.
Proof.
  revert cur. induction pre as [|c p IH]; intros cur Hpre.
  - rewrite str_app_nil_l, str_app_nil_r. reflexivity.
  - unfold no_backtick in Hpre. cbn [PyStr.all] in Hpre.
    apply andb_prop in Hpre as [Hc Hp].
    rewrite str_app_cons. cbn [PyStr.split_go].
    rewrite (startswith_fence_other _ _ Hc).
    rewrite (IH _ Hp). f_equal. by rewrite str_app_assoc.
Qed.

Lemma replace_absent (old new s : string) :
  PyStr.contains old s = false ->
  PyStr.replace_go old new 0 s = s.
Proof.
  induction s as [|c r IH]; [reflexivity|].
  intros H. cbn [PyStr.contains] in H. apply orb_false_iff in H as [Hhere Hrest].
  cbn [PyStr.replace_go]. rewrite Hhere. by rewrite IH.
Qed.

Lemma scan_payload_fenced (pre tag body post : string) :
  tag = "" \/ tag = "json" ->
  no_backtick pre = true ->
  no_backtick body = true ->
  PyStr.contains "json" body = false ->
  scan_payload (pre ++ fence ++ tag ++ body ++ fence ++ post) = Return (Py.strip body).
Proof.
  intros Htag Hpre Hbody Hjson. unfold scan_payload.
  rewrite contains_fence_app. unfold PyStr.split.
  rewrite (split_go_fence pre _ "" Hpre).
  assert (no_backtick (tag ++ body) = true) as Hseg by (by destruct Htag as [-> | ->]).
  rewrite <- (str_app_assoc tag body).
  rewrite (split_go_fence (tag ++ body) post "" Hseg).
  rewrite !str_app_nil_l. cbn [lookup list_lookup].
  do 2 f_equal. unfold PyStr.replace.
  destruct Htag as [-> | ->].
  - rewrite str_app_nil_l. by apply replace_absent.
  - rewrite !str_app_cons, str_app_nil_l. cbn [PyStr.replace_go PyStr.startswith].
    rewrite !Ascii.eqb_refl. cbn [andb String.length Nat.sub String.append].
    by apply replace_absent.
Qed.

Section ScanResults.

Variable b64encode : string -> string.
Variable vision : string -> outcome (option string).
Variable json_loads : string -> outcome json.

Lemma scan_prescription_keyed (file : outcome string) (w : World) :
  OPENAI_API_KEY w <> "" ->
  scan_prescription b64encode vision json_loads file w
  = (Return
       match file with
       | Raise e => ScanError (str e)
       | Return contents =>
           match vision ("data:image/jpeg;base64," ++ b64encode contents)%string with
           | Raise e => ScanError (str e)
           | Return None => ScanError "'NoneType' object has no attribute 'strip'"
           | Return (Some content) =>
               match scan_payload (Py.strip content) with
               | Raise e => ScanError (str e)
               | Return payload => parsed (json_loads payload)
               end
           end
       end, w).
Proof.
  intros Hkey. unfold scan_prescription, lift, parsed. run_handler.
  assert (Py.truthy_str (OPENAI_API_KEY w) = true) as ->
      by (by destruct (OPENAI_API_KEY w)).
  simpl. destruct file as [contents|e]; [|reflexivity].
  destruct (vision _) as [[content|]|e]; try reflexivity.
  destruct (scan_payload _) as [payload|e]; [|reflexivity].
  by destruct (json_loads payload).
Qed.

(** X12. The scan handler never raises and never changes the world.
    Without a language-model key it answers with the fixed sample
    extraction whatever the file is, even an unreadable one.  With a key,
    a failed file read, a failed model call, a reply without content and
    a payload that [json.loads] rejects each give a status "error" whose
    message is the text of the error. *)
Theorem scan_prescription_never_raises (file : outcome string) (w : World) :
  exists r,
    scan_prescription b64encode vision json_loads file w = (Return r, w)
    /\ (OPENAI_API_KEY w = "" -> r = ScanSuccess sample_extraction)
    /\ (OPENAI_API_KEY w <> "" ->
        (forall e, file = Raise e -> r = ScanError (str e))
        /\ (forall contents e,
              file = Return contents ->
              vision ("data:image/jpeg;base64," ++ b64encode contents)%string = Raise e ->
              r = ScanError (str e))
        /\ (forall contents,
              file = Return contents ->
              vision ("data:image/jpeg;base64," ++ b64encode contents)%string = Return None ->
              r = ScanError "'NoneType' object has no attribute 'strip'")
        /\ (forall contents content payload e,
              file = Return contents ->
              vision ("data:image/jpeg;base64," ++ b64encode contents)%string
              = Return (Some content) ->
              scan_payload (Py.strip content) = Return payload ->
              json_loads payload = Raise e ->
              r = ScanError (str e))).
Proof.
  destruct (OPENAI_API_KEY w) as [|a k] eqn:Hkey.
  - eexists. split.
    + unfold scan_prescription. run_handler. rewrite Hkey. reflexivity.
    + split; [done|]. intros H. by destruct H.
  - eexists. split.
    + apply scan_prescription_keyed. by rewrite Hkey.
    + split; [discriminate|]. intros _. repeat split.
      * by intros e ->.
      * by intros contents e -> ->.
      * by intros contents -> ->.
      * intros contents content payload e -> -> -> ->. reflexivity.
Qed.

(** X13. When the model wraps its answer in a code fence, with or without
    the "json" tag, and neither the text before the fence nor the fenced
    body holds a backtick, nor the body the letters "json", the handler
    parses exactly the stripped body: its answer is what [json.loads]
    makes of it, whatever follows the closing fence. *)
Theorem scan_prescription_unwraps_fence
    (contents content pre tag body post : string) (w : World) :
  OPENAI_API_KEY w <> "" ->
  vision ("data:image/jpeg;base64," ++ b64encode contents)%string = Return (Some content) ->
  Py.strip content = (pre ++ fence ++ tag ++ body ++ fence ++ post)%string ->
  tag = "" \/ tag = "json" ->
  no_backtick pre = true ->
  no_backtick body = true ->
  PyStr.contains "json" body = false ->
  scan_prescription b64encode vision json_loads (Return contents) w
  = (Return (parsed (json_loads (Py.strip body))), w).
Proof.
  intros Hkey Hvision Hshape Htag Hpre Hbody Hjson.
  rewrite (scan_prescription_keyed _ _ Hkey), Hvision, Hshape.
  by rewrite scan_payload_fenced.
Qed.

End ScanResults.

Lemma scan_prescription_unwraps_fence_witness :
  scan_prescription (fun s => s)
                    (fun _ => Return (Some ("Sure: ```json" ++ nbsp ++ "{}" ++ nbsp
                                            ++ "``` done")%string))
                    (fun payload => Return (JStr payload))
                    (Return "image bytes") llm_only_world
  = (Return (ScanSuccess (JStr "{}")), llm_only_world).
Proof.
  apply (scan_prescription_unwraps_fence (fun s => s)
           (fun _ => Return (Some ("Sure: ```json" ++ nbsp ++ "{}" ++ nbsp
                                   ++ "``` done")%string))
           (fun payload => Return (JStr payload))
           "image bytes" ("Sure: ```json" ++ nbsp ++ "{}" ++ nbsp ++ "``` done")%string
           "Sure: " "json" (nbsp ++ "{}" ++ nbsp)%string " done"
           llm_only_world).
  - discriminate.
  - reflexivity.
  - reflexivity.
  - by right.
  - reflexivity.
  - reflexivity.
  - reflexivity.
Defined.

(* ===================================================================== *)
(** * Soft delete and the derived views *)
(* ===================================================================== *)

(** X14. After a medication is soft-deleted, a senior's schedule lists the
    formerly active medications without that id, in the same order, and
    the summary's total is their number.  The taken count is not
    affected: it is still the number of all of today's taken logs, those
    of the deleted medication included. *)
Theorem delete_then_views (med_id : Z) (w : World) (db : Database) :
  supabase w = Some db ->
  adapter_up 1 w = true ->
  exists db' w',
    delete_medication med_id w = (Return (mkAck "deleted"), w')
    /\ supabase w' = Some db'
    /\ forall senior_id w2,
         supabase w2 = Some db' ->
         adapter_up 2 w2 = true ->
         exists entries summary w3 w4,
           get_today_schedule senior_id w2 = (Return entries, w3)
           /\ get_adherence_summary senior_id w2 = (Return summary, w4)
           /\ map entry_med entries
              = bfilter (fun m => negb (Medication.id m =? med_id)%Z)
                        (active_medications senior_id db)
           /\ total summary = len (map entry_med entries)
           /\ taken summary = len (taken_logs_on (today w2) db).
Proof.
  intros Hdb Hup.
  destruct (delete_medication_up med_id w db Hdb Hup) as (w' & E & Hdb').
  eexists _, w'. split; [exact E|]. split; [exact Hdb'|].
  intros senior_id w2 Hdb2 Hup2.
  destruct (get_today_schedule_up senior_id w2 _ Hdb2 Hup2) as (w3 & E3 & _).
  destruct (get_adherence_summary_up senior_id w2 _ Hdb2 Hup2) as (w4 & E4 & _).
  eexists _, _, w3, w4. split; [exact E3|]. split; [exact E4|].
  assert (forall (f : Medication.t -> option ReminderLog.t) l,
             map entry_med (map (fun med => mkEntry med (f med)) l) = l) as Hmeds.
  { intros f l. rewrite map_map. simpl. apply map_id. }
  rewrite Hmeds. simpl.
  unfold active_medications. simpl.
  rewrite active_after_soft_delete. repeat split.
Qed.

Lemma delete_then_views_witness :
  exists db' w',
    delete_medication 1 (quiet_world (Some sample_database) []) = (Return (mkAck "deleted"), w')
    /\ supabase w' = Some db'
    /\ exists entries summary w3 w4,
         get_today_schedule 1 (quiet_world (Some db') []) = (Return entries, w3)
         /\ get_adherence_summary 1 (quiet_world (Some db') []) = (Return summary, w4)
         /\ map entry_med entries = []
         /\ total summary = 0%Z.
Proof.
  destruct (delete_then_views 1 (quiet_world (Some sample_database) [])
              sample_database eq_refl eq_refl)
    as (db' & w' & E & Hdb & Hviews).
  exists db', w'. split; [exact E|]. split; [exact Hdb|].
  destruct (Hviews 1%Z (quiet_world (Some db') []) eq_refl eq_refl)
    as (entries & summary & w3 & w4 & E3 & E4 & Hmeds & Htotal & _).
  exists entries, summary, w3, w4. split; [exact E3|]. split; [exact E4|].
  split; [exact Hmeds|]. rewrite Htotal, Hmeds. reflexivity.
Defined.
